(** * Resumable chat streaming: the route handlers of the chat and vote APIs

    A shallow embedding of the route handlers in [route.ts] (POST, GET and
    DELETE of the chat API with [getStreamContext], then GET and PATCH of the
    vote API) and of the request schemas in [schema.ts].

    Handlers are asynchronous JavaScript functions that read and write a
    database through [@/lib/db/queries], a module-level variable
    ([globalStreamContext]) and the console.  They are embedded in a state
    monad over a [World] with three outcomes: a value, an early [return] of a
    response, and a thrown exception.  Everything imported from outside the
    route files (queries, engine, stream backend, clock) is a field of an
    environment record [Env]; an in-memory instance is given for evaluation. *)

From Stdlib Require Import ZArith Lia.
From stdpp Require Import base strings list gmap.

Local Open Scope Z_scope.

(** ** JavaScript values *)

(** What [await request.json()] can produce, plus [undefined] for an absent
    property.  Numbers are the integers among the JSON numbers. *)
#[warnings="-register-all"]
Inductive JsValue : Type :=
| JUndefined
| JNull
| JBool (b : bool)
| JNumber (n : Z)
| JString (s : string)
| JArray (items : list JsValue)
| JObject (fields : list (string * JsValue)).

(** [!v] is [negb (truthy v)]. *)
Definition truthy (v : JsValue) : bool :=
  match v with
  | JUndefined | JNull => false
  | JBool b => b
  | JNumber n => negb (n =? 0)
  | JString s => negb (String.eqb s "")
  | JArray _ | JObject _ => true
  end.

Fixpoint assoc (k : string) (fields : list (string * JsValue)) : JsValue :=
  match fields with
  | [] => JUndefined
  | (k', v) :: rest => if String.eqb k k' then v else assoc k rest
  end.

(** Property read [v.k] as done by a destructuring pattern: [None] is the
    TypeError raised on [null] and [undefined]. *)
Definition get_prop (v : JsValue) (k : string) : option JsValue :=
  match v with
  | JUndefined | JNull => None
  | JObject fields => Some (assoc k fields)
  | _ => Some JUndefined
  end.

(** Truthiness of a [string | null], as for [searchParams.get(..)]. *)
Definition truthy_param (p : option string) : bool :=
  match p with
  | Some s => negb (String.eqb s "")
  | None => false
  end.

(** [haystack.includes(needle)] *)
Definition includes (haystack needle : string) : bool :=
  match String.index 0 needle haystack with
  | Some _ => true
  | None => false
  end.

(** ** Errors and responses *)

(** Thrown values: a [ChatSDKError] with its code and cause, or another
    [Error] with its message. *)
Inductive Exn : Type :=
| ChatSDKError (code : string) (cause : option string)
| Error (message : string).

Record Chat : Type := {
  chat_id : string;
  chat_userId : string;
  chat_title : string;
  chat_visibility : string;
  chat_createdAt : Z;
}.

Record DBMessage : Type := {
  dbm_id : string;
  dbm_chatId : string;
  dbm_role : string;
  dbm_parts : list JsValue;
  dbm_attachments : list JsValue;
  dbm_createdAt : Z;   (* milliseconds since the epoch *)
}.

Record Vote : Type := {
  vote_chatId : string;
  vote_messageId : string;
  vote_isUpvoted : bool;
}.

(** Parts of a data stream.  A stream is the finite list of the parts it
    carries before it closes. *)
Inductive Chunk : Type :=
| text_delta (text : string)
| reasoning_delta (text : string)
| tool_event (payload : string)
| data_part (type : string) (message : string)
| error_part (message : string)
| finish_part.

Definition Stream : Type := list Chunk.

Inductive Body : Type :=
| body_null
| body_stream (s : Stream)
| body_text (s : string)
| body_chat (c : option Chat)
| body_votes (vs : list Vote).

Inductive Response : Type :=
| error_response (code : string) (cause : option string)
    (* new ChatSDKError(code, cause).toResponse() *)
| response (body : Body) (status : Z)
| unhandled (e : Exn).
    (* the handler's promise rejects *)

(** ** Sessions, requests and the engine's vocabulary *)

Record User : Type := { user_id : string; user_type : string }.
Record Session : Type := { user : option User }.

(** [session?.user] *)
Definition session_user (s : option Session) : option User :=
  match s with
  | Some s => user s
  | None => None
  end.

Record UIMessage : Type := {
  msg_id : string;
  msg_role : string;
  msg_content : option string;
  msg_parts : list JsValue;
  msg_experimental_attachments : option (list JsValue);
}.

Record PostRequestBody : Type := {
  id : string;
  message : UIMessage;
  selectedChatModel : string;
  selectedVisibilityType : string;
}.

Record RequestHints : Type := {
  longitude : option string;
  latitude : option string;
  city : option string;
  country : option string;
}.

Record ResponseMessage : Type := { rm_id : string; rm_role : string }.

Record Entitlements : Type := { maxMessagesPerDay : Z }.

Record StreamTextOptions : Type := {
  st_model : string;
  st_hints : RequestHints;
  st_messages : list UIMessage;
  st_maxSteps : Z;
  st_activeTools : list string;
}.

(** The handle returned by [createResumableStreamContext]: its one method
    used here, [resumableStream(streamId, makeStream)], resolves to a stream
    or to [null], or rejects. *)
Record ResumableStreamContext : Type := {
  resumableStream : string -> Stream -> Exn + option Stream;
}.

(** ** The data stream writer *)

(** [createDataStream({ execute })]: the stream carries what [execute] writes
    to the writer it is given. *)
Definition createDataStream (execute : list Chunk -> list Chunk) : Stream :=
  execute [].

Definition writeData (buffer : list Chunk) (type message : string) : list Chunk :=
  buffer ++ [data_part type message].

Definition mergeIntoDataStream (result dataStream : list Chunk) : list Chunk :=
  dataStream ++ result.

(** [differenceInSeconds(later, earlier)] of date-fns: the difference in
    milliseconds over 1000, truncated towards zero. *)
Definition differenceInSeconds (dateLeft dateRight : Z) : Z :=
  Z.quot (dateLeft - dateRight) 1000.

(** ** Request schemas ([schema.ts]) *)

Definition z_string (v : JsValue) : option string :=
  match v with JString s => Some s | _ => None end.

(** [z.string().min(1, ..)] *)
Definition z_string_min1 (v : JsValue) : option string :=
  match v with
  | JString s => if String.eqb s "" then None else Some s
  | _ => None
  end.

(** [z.array(z.any())] *)
Definition z_array_any (v : JsValue) : option (list JsValue) :=
  match v with JArray l => Some l | _ => None end.

(** [schema.optional()] *)
Definition z_optional {A} (schema : JsValue -> option A) (v : JsValue)
  : option (option A) :=
  match v with
  | JUndefined => Some None
  | _ => match schema v with Some a => Some (Some a) | None => None end
  end.

Definition z_message (v : JsValue) : option UIMessage :=
  match v with
  | JObject f =>
      i ← z_string (assoc "id" f);
      r ← z_string (assoc "role" f);
      c ← z_optional z_string (assoc "content" f);
      p ← z_array_any (assoc "parts" f);
      a ← z_optional z_array_any (assoc "experimental_attachments" f);
      Some {| msg_id := i; msg_role := r; msg_content := c; msg_parts := p;
              msg_experimental_attachments := a |}
  | _ => None
  end.

(** [postRequestBodySchema.parse(json)]; [None] is the thrown ZodError. *)
Definition postRequestBodySchema (json : JsValue) : option PostRequestBody :=
  match json with
  | JObject f =>
      i ← z_string_min1 (assoc "id" f);
      m ← z_message (assoc "message" f);
      c ← z_string_min1 (assoc "selectedChatModel" f);
      v ← z_string_min1 (assoc "selectedVisibilityType" f);
      Some {| id := i; message := m; selectedChatModel := c;
              selectedVisibilityType := v |}
  | _ => None
  end.

(** [z.union([z.literal('up'), z.literal('down')])] *)
Definition z_up_or_down (v : JsValue) : option string :=
  match v with
  | JString s =>
      if String.eqb s "up" || String.eqb s "down" then Some s else None
  | _ => None
  end.

Record PatchRequestBody : Type := {
  pb_chatId : string;
  pb_messageId : string;
  pb_type : string;
}.

(** [patchRequestBodySchema.parse(json)] *)
Definition patchRequestBodySchema (json : JsValue) : option PatchRequestBody :=
  match json with
  | JObject f =>
      c ← z_string_min1 (assoc "chatId" f);
      m ← z_string_min1 (assoc "messageId" f);
      t ← z_up_or_down (assoc "type" f);
      Some {| pb_chatId := c; pb_messageId := m; pb_type := t |}
  | _ => None
  end.

(** ** The console, the calls a handler makes, and the environment *)

Inductive Event : Type :=
| console_log (msg : string)
| console_warn (msg : string)
| console_error (msg : string) (err : option Exn)
| call_createResumableStreamContext
| call_resumableStream (streamId : string)
| call_getChatById (id : JsValue)
| call_getMessagesByChatId (id : string)
| call_getStreamIdsByChatId (chatId : string)
| call_getMessageCountByUserId (id : string) (differenceInHours : Z)
| call_getVotesByChatId (id : string)
| call_generateTitleFromUserMessage
| call_saveChat (id userId title visibility : string)
| call_saveMessages (messages : list DBMessage)
| call_createStreamId (streamId chatId : string)
| call_deleteChatById (id : string)
| call_voteMessage (chatId messageId type : JsValue).

(** The writes among the calls. *)
Definition is_write (e : Event) : bool :=
  match e with
  | call_saveChat _ _ _ _ | call_saveMessages _ | call_createStreamId _ _
  | call_deleteChatById _ | call_voteMessage _ _ _ => true
  | _ => false
  end.

Definition is_construction (e : Event) : bool :=
  match e with call_createResumableStreamContext => true | _ => false end.

(** How many times [createResumableStreamContext] has been called. *)
Definition constructions (t : list Event) : nat :=
  length (filter (fun e => is_construction e = true) t).

(** Everything the route files import.  [Db] is the state of the database;
    reads leave it alone, writes return the new state even when they throw.
    [createResumableStreamContext n] is the outcome of the call made after
    [n] earlier ones: the thrown error's message, or the handle. *)
Record Env (Db : Type) : Type := {
  getChatById : JsValue -> Db -> Exn + option Chat;
  getMessagesByChatId : string -> Db -> Exn + list DBMessage;
  getStreamIdsByChatId : string -> Db -> Exn + list string;
  getMessageCountByUserId : string -> Z -> Db -> Exn + Z;
  getVotesByChatId : string -> Db -> Exn + list Vote;
  saveChat : string -> string -> string -> string -> Db -> (Exn + unit) * Db;
  saveMessages : list DBMessage -> Db -> (Exn + unit) * Db;
  createStreamId : string -> string -> Db -> (Exn + unit) * Db;
  deleteChatById : string -> Db -> (Exn + option Chat) * Db;
  voteMessage : JsValue -> JsValue -> JsValue -> Db -> (Exn + unit) * Db;
  entitlementsByUserType : string -> option Entitlements;
  generateTitleFromUserMessage : UIMessage -> Exn + string;
  appendClientMessage : list DBMessage -> UIMessage -> list UIMessage;
  streamText : StreamTextOptions -> list Chunk;
  getTrailingMessageId : list ResponseMessage -> option string;
  appendResponseMessages :
    UIMessage -> list ResponseMessage -> Exn + UIMessage;
  JSON_stringify : DBMessage -> string;
  createResumableStreamContext : nat -> string + ResumableStreamContext;
}.

Arguments getChatById {Db}.
Arguments getMessagesByChatId {Db}.
Arguments getStreamIdsByChatId {Db}.
Arguments getMessageCountByUserId {Db}.
Arguments getVotesByChatId {Db}.
Arguments saveChat {Db}.
Arguments saveMessages {Db}.
Arguments createStreamId {Db}.
Arguments deleteChatById {Db}.
Arguments voteMessage {Db}.
Arguments entitlementsByUserType {Db}.
Arguments generateTitleFromUserMessage {Db}.
Arguments appendClientMessage {Db}.
Arguments streamText {Db}.
Arguments getTrailingMessageId {Db}.
Arguments appendResponseMessages {Db}.
Arguments JSON_stringify {Db}.
Arguments createResumableStreamContext {Db}.

(** The process: the database, the module-level [globalStreamContext] and
    the events so far, oldest first. *)
Record World (Db : Type) : Type := {
  db : Db;
  globalStreamContext : option ResumableStreamContext;
  trace : list Event;
}.

Arguments db {Db}.
Arguments globalStreamContext {Db}.
Arguments trace {Db}.

(** ** The handler monad *)

Inductive Outcome (A : Type) : Type :=
| Value (a : A)
| Return (r : Response)
| Throw (e : Exn).

Arguments Value {A}.
Arguments Return {A}.
Arguments Throw {A}.

Section Monad.
Context {Db : Type}.

Definition M (A : Type) : Type := World Db -> Outcome A * World Db.

Definition ret {A} (a : A) : M A := fun w => (Value a, w).

Definition bind {A B} (m : M A) (k : A -> M B) : M B :=
  fun w =>
    match m w with
    | (Value a, w') => k a w'
    | (Return r, w') => (Return r, w')
    | (Throw e, w') => (Throw e, w')
    end.

Definition return_ {A} (r : Response) : M A := fun w => (Return r, w).

Definition throw {A} (e : Exn) : M A := fun w => (Throw e, w).

(** [try { m } catch (e) { h e }] *)
Definition try_catch {A} (m : M A) (h : Exn -> M A) : M A :=
  fun w =>
    match m w with
    | (Throw e, w') => h e w'
    | r => r
    end.

Definition emit (e : Event) : M unit :=
  fun w =>
    (Value tt,
     {| db := db w; globalStreamContext := globalStreamContext w;
        trace := trace w ++ [e] |}).

Definition set_globalStreamContext (c : ResumableStreamContext) : M unit :=
  fun w =>
    (Value tt,
     {| db := db w; globalStreamContext := Some c; trace := trace w |}).

Definition get_globalStreamContext : M (option ResumableStreamContext) :=
  fun w => (Value (globalStreamContext w), w).

Definition get_trace : M (list Event) := fun w => (Value (trace w), w).

(** A value or a thrown exception. *)
Definition lift {A} (r : Exn + A) : M A :=
  match r with
  | inl e => throw e
  | inr a => ret a
  end.

(** A query that reads the database. *)
Definition read {A} (e : Event) (q : Db -> Exn + A) : M A :=
  bind (emit e) (fun _ w => lift (q (db w)) w).

(** A query that writes the database. *)
Definition write {A} (e : Event) (q : Db -> (Exn + A) * Db) : M A :=
  bind (emit e) (fun _ w =>
    let '(r, d) := q (db w) in
    lift r {| db := d; globalStreamContext := globalStreamContext w;
              trace := trace w |}).

(** What the caller of an exported handler sees. *)
Definition respond (m : M Response) (w : World Db) : Response * World Db :=
  match m w with
  | (Value r, w') => (r, w')
  | (Return r, w') => (r, w')
  | (Throw e, w') => (unhandled e, w')
  end.

End Monad.

Notation "'let!' x ':=' c 'in' k" := (bind c (fun x => k))
  (at level 10, x name, c at level 100, k at level 200, only parsing).
Notation "'do!' c 'in' k" := (bind c (fun _ => k))
  (at level 10, c at level 100, k at level 200, only parsing).

(** A request as a handler sees it: the URL's query parameters, the outcome
    of [request.json()] ([None] when it rejects), and what the ambient calls
    made while serving it return: [auth()], [new Date()], [generateUUID()]
    and [geolocation(request)]. *)
Record Request : Type := {
  searchParams : list (string * string);
  json : option JsValue;
  auth : option Session;
  now : Z;
  uuid : string;
  geolocation : RequestHints;
}.

(** [searchParams.get(name)] *)
Fixpoint searchParams_get (ps : list (string * string)) (name : string)
  : option string :=
  match ps with
  | [] => None
  | (k, v) :: rest => if String.eqb k name then Some v else searchParams_get rest name
  end.

(** ** The chat route *)

Module ChatRoute.
Section WithEnv.
Context {Db : Type} (env : Env Db).

Definition getStreamContext : M (Db := Db) (option ResumableStreamContext) :=
  let! g := get_globalStreamContext in
  do! match g with
  | Some _ => ret tt
  | None =>
      let! t := get_trace in
      do! emit call_createResumableStreamContext in
      match createResumableStreamContext env (constructions t) with
      | inr c => set_globalStreamContext c
      | inl message =>
          if includes message "REDIS_URL"
          then emit (console_log
                 " > Resumable streams are disabled due to missing REDIS_URL")
          else emit (console_error "Error creating resumable stream context:"
                       (Some (Error message)))
      end
  end in
  get_globalStreamContext.

(** The [onFinish] callback that POST hands to [streamText], closed over the
    session, the chat id and the user's message.  [finishedAt] is the
    [new Date()] it takes; [response_messages] is [response.messages]. *)
Definition onFinish (session : option Session) (id : string)
    (message : UIMessage) (finishedAt : Z)
    (response_messages : list ResponseMessage) : M (Db := Db) unit :=
  match session_user session with
  | Some u =>
      if negb (String.eqb (user_id u) "") then
        try_catch
          (let assistantId :=
             getTrailingMessageId env
               (filter (fun msg => String.eqb (rm_role msg) "assistant" = true)
                  response_messages) in
           let! assistantId :=
             match assistantId with
             | Some a =>
                 if String.eqb a "" then throw (Error "No assistant message found!")
                 else ret a
             | None => throw (Error "No assistant message found!")
             end in
           let! assistantMessage :=
             lift (appendResponseMessages env message response_messages) in
           let row :=
             {| dbm_id := assistantId;
                dbm_chatId := id;
                dbm_role := msg_role assistantMessage;
                dbm_parts := msg_parts assistantMessage;
                dbm_attachments :=
                  default [] (msg_experimental_attachments assistantMessage);
                dbm_createdAt := finishedAt |} in
           write (call_saveMessages [row]) (saveMessages env [row]))
          (fun saveError =>
             emit (console_error "Failed to save assistant message:"
                     (Some saveError)))
      else ret tt
  | None => ret tt
  end.

(** The [stream] POST builds with [createDataStream]: [execute] starts
    [streamText] and merges its result into the data stream. *)
Definition producer (selectedChatModel : string) (requestHints : RequestHints)
    (messages : list UIMessage) : Stream :=
  createDataStream (fun dataStream =>
    let result :=
      streamText env
        {| st_model := selectedChatModel;
           st_hints := requestHints;
           st_messages := messages;
           st_maxSteps := 5;
           st_activeTools :=
             if String.eqb selectedChatModel "chat-model-reasoning"
             then []
             else ["getWeather"; "createDocument"; "updateDocument";
                   "requestSuggestions"] |} in
    mergeIntoDataStream result dataStream).

Definition POST (request : Request) : World Db -> Response * World Db :=
  respond (
    let! requestBody :=
      try_catch
        (match json request with
         | None => throw (Error "SyntaxError")
         | Some j =>
             match postRequestBodySchema j with
             | Some b => ret b
             | None => throw (Error "ZodError")
             end
         end)
        (fun error =>
           do! emit (console_error "Error parsing request body:" (Some error)) in
           return_ (error_response "bad_request:api" (Some "Invalid request body.")))
    in
    try_catch
      (let id := id requestBody in
       let message := message requestBody in
       let selectedChatModel := selectedChatModel requestBody in
       let selectedVisibilityType := selectedVisibilityType requestBody in
       let session := auth request in
       match session_user session with
       | None => return_ (error_response "unauthorized:chat" None)
       | Some u =>
           let userType := user_type u in
           let! messageCount :=
             read (call_getMessageCountByUserId (user_id u) 24)
               (getMessageCountByUserId env (user_id u) 24) in
           let! entitlements :=
             match entitlementsByUserType env userType with
             | Some e => ret e
             | None => throw (Error "TypeError")
             end in
           do! (if messageCount >? maxMessagesPerDay entitlements
                then return_ (error_response "rate_limit:chat" None)
                else ret tt) in
           let! chat :=
             read (call_getChatById (JString id)) (getChatById env (JString id)) in
           do! match chat with
               | None =>
                   let! title :=
                     (do! emit call_generateTitleFromUserMessage in
                      lift (generateTitleFromUserMessage env message)) in
                   write (call_saveChat id (user_id u) title selectedVisibilityType)
                     (saveChat env id (user_id u) title selectedVisibilityType)
               | Some chat =>
                   if negb (String.eqb (chat_userId chat) (user_id u))
                   then return_ (error_response "forbidden:chat" None)
                   else ret tt
               end in
           let! previousMessages :=
             read (call_getMessagesByChatId id) (getMessagesByChatId env id) in
           let messages := appendClientMessage env previousMessages message in
           let requestHints := geolocation request in
           let row :=
             {| dbm_id := msg_id message;
                dbm_chatId := id;
                dbm_role := "user";
                dbm_parts := msg_parts message;
                dbm_attachments := default [] (msg_experimental_attachments message);
                dbm_createdAt := now request |} in
           do! write (call_saveMessages [row]) (saveMessages env [row]) in
           let streamId := uuid request in
           do! write (call_createStreamId streamId id)
                 (createStreamId env streamId id) in
           let stream :=
             producer selectedChatModel requestHints messages in
           let! streamContext := getStreamContext in
           let! responseStreamToReturn :=
             match streamContext with
             | Some streamContext =>
                 let! resumableStreamResult :=
                   (do! emit (call_resumableStream streamId) in
                    lift (resumableStream streamContext streamId stream)) in
                 match resumableStreamResult with
                 | Some s => ret (Some s)
                 | None =>
                     do! emit (console_warn
                       "resumableStream returned null, falling back to direct stream.") in
                     ret (Some stream)
                 end
             | None => ret (Some stream)
             end in
           match responseStreamToReturn with
           | Some s => return_ (response (body_stream s) 200)
           | None =>
               do! emit (console_error
                     "Critical error: No valid stream generated for response." None) in
               return_ (error_response "internal_server_error:api"
                          (Some "Failed to generate a valid streaming response."))
           end
       end)
      (fun error =>
         match error with
         | ChatSDKError code cause => return_ (error_response code cause)
         | _ =>
             do! emit (console_error "Unhandled error in POST /api/chat:"
                         (Some error)) in
             return_ (error_response "internal_server_error:api"
                        (Some "An unexpected error occurred."))
         end)).

(** The stream GET answers with when the resumable stream has concluded
    (the body of [if (!stream)]), given the chat's messages. *)
Definition restored (messages : list DBMessage) (resumeRequestedAt : Z)
    (emptyDataStream : Stream) : Stream :=
  match last messages with
  | None => emptyDataStream
  | Some mostRecentMessage =>
      if negb (String.eqb (dbm_role mostRecentMessage) "assistant")
      then emptyDataStream
      else
        let messageCreatedAt := dbm_createdAt mostRecentMessage in
        if differenceInSeconds resumeRequestedAt messageCreatedAt >? 15
        then emptyDataStream
        else
          createDataStream (fun buffer =>
            writeData buffer "append-message"
              (JSON_stringify env mostRecentMessage))
  end.

Definition GET (request : Request) : World Db -> Response * World Db :=
  respond (
    try_catch
      (let! streamContext := getStreamContext in
       let resumeRequestedAt := now request in
       match streamContext with
       | None => return_ (response body_null 204)
       | Some streamContext =>
           let chatId := searchParams_get (searchParams request) "chatId" in
           if negb (truthy_param chatId) then
             return_ (error_response "bad_request:api"
                        (Some "Parameter chatId is required."))
           else
             let chatId := default "" chatId in
             let session := auth request in
             match session_user session with
             | None => return_ (error_response "unauthorized:chat" None)
             | Some u =>
                 let! chat :=
                   try_catch
                     (read (call_getChatById (JString chatId))
                        (getChatById env (JString chatId)))
                     (fun error =>
                        do! emit (console_error
                              "Error fetching chat by ID in GET /api/chat:"
                              (Some error)) in
                        return_ (error_response "internal_server_error:api"
                                   (Some "Failed to retrieve chat."))) in
                 match chat with
                 | None => return_ (error_response "not_found:chat" None)
                 | Some chat =>
                     if String.eqb (chat_visibility chat) "private"
                        && negb (String.eqb (chat_userId chat) (user_id u))
                     then return_ (error_response "forbidden:chat" None)
                     else
                       let! streamIds :=
                         read (call_getStreamIdsByChatId chatId)
                           (getStreamIdsByChatId env chatId) in
                       if (length streamIds =? 0)%nat
                       then return_ (error_response "not_found:stream" None)
                       else
                         let recentStreamId := last streamIds in
                         if negb (truthy_param recentStreamId)
                         then return_ (error_response "not_found:stream"
                                         (Some "No recent stream ID found."))
                         else
                           let recentStreamId := default "" recentStreamId in
                           let emptyDataStream :=
                             createDataStream (fun buffer => buffer) in
                           let! stream :=
                             (do! emit (call_resumableStream recentStreamId) in
                              lift (resumableStream streamContext recentStreamId
                                      emptyDataStream)) in
                           match stream with
                           | None =>
                               let! messages :=
                                 read (call_getMessagesByChatId chatId)
                                   (getMessagesByChatId env chatId) in
                               return_
                                 (response
                                    (body_stream
                                       (restored messages resumeRequestedAt
                                          emptyDataStream))
                                    200)
                           | Some stream =>
                               return_ (response (body_stream stream) 200)
                           end
                 end
             end
       end)
      (fun error =>
         do! emit (console_error "Unhandled error in GET /api/chat:"
                     (Some error)) in
         match error with
         | ChatSDKError code cause => return_ (error_response code cause)
         | _ =>
             return_ (error_response "internal_server_error:api"
                        (Some "An unexpected error occurred."))
         end)).

Definition DELETE (request : Request) : World Db -> Response * World Db :=
  respond (
    try_catch
      (let id := searchParams_get (searchParams request) "id" in
       if negb (truthy_param id) then
         return_ (error_response "bad_request:api"
                    (Some "Parameter id is required."))
       else
         let id := default "" id in
         let session := auth request in
         match session_user session with
         | None => return_ (error_response "unauthorized:chat" None)
         | Some u =>
             let! chat :=
               read (call_getChatById (JString id)) (getChatById env (JString id)) in
             match chat with
             | None =>
                 return_ (error_response "not_found:chat" (Some "Chat not found."))
             | Some chat =>
                 if negb (String.eqb (chat_userId chat) (user_id u))
                 then return_ (error_response "forbidden:chat" None)
                 else
                   let! deletedChat :=
                     write (call_deleteChatById id) (deleteChatById env id) in
                   return_ (response (body_chat deletedChat) 200)
             end
         end)
      (fun error =>
         do! emit (console_error "Unhandled error in DELETE /api/chat:"
                     (Some error)) in
         match error with
         | ChatSDKError code cause => return_ (error_response code cause)
         | _ =>
             return_ (error_response "internal_server_error:api"
                        (Some "An unexpected error occurred."))
         end)).

End WithEnv.
End ChatRoute.

(** ** The vote route *)

Module VoteRoute.
Section WithEnv.
Context {Db : Type} (env : Env Db).

Definition GET (request : Request) : World Db -> Response * World Db :=
  respond (
    try_catch
      (let chatId := searchParams_get (searchParams request) "chatId" in
       if negb (truthy_param chatId) then
         return_ (error_response "bad_request:api"
                    (Some "Parameter chatId is required."))
       else
         let chatId := default "" chatId in
         let session := auth request in
         match session_user session with
         | None => return_ (error_response "unauthorized:vote" None)
         | Some u =>
             let! chat :=
               read (call_getChatById (JString chatId))
                 (getChatById env (JString chatId)) in
             match chat with
             | None => return_ (error_response "not_found:chat" None)
             | Some chat =>
                 if negb (String.eqb (chat_userId chat) (user_id u))
                 then return_ (error_response "forbidden:vote" None)
                 else
                   let! votes :=
                     read (call_getVotesByChatId chatId)
                       (getVotesByChatId env chatId) in
                   return_ (response (body_votes votes) 200)
             end
         end)
      (fun error =>
         do! emit (console_error "Error in GET /api/vote:" (Some error)) in
         return_ (error_response "internal_server_error:api"
                    (Some "An unexpected error occurred.")))).

(** The destructuring [const { chatId, messageId, type } = await request.json()]. *)
Definition destructure (request : Request)
  : M (Db := Db) (JsValue * JsValue * JsValue) :=
  match json request with
  | None => throw (Error "SyntaxError")
  | Some body =>
      match get_prop body "chatId", get_prop body "messageId",
            get_prop body "type" with
      | Some chatId, Some messageId, Some type => ret (chatId, messageId, type)
      | _, _, _ => throw (Error "TypeError")
      end
  end.

Definition PATCH (request : Request) : World Db -> Response * World Db :=
  respond (
    try_catch
      (let! fields := destructure request in
       let '(chatId, messageId, type) := fields in
       if negb (truthy chatId) || negb (truthy messageId) || negb (truthy type)
       then
         return_ (error_response "bad_request:api"
                    (Some "Parameters chatId, messageId, and type are required."))
       else
         let session := auth request in
         match session_user session with
         | None => return_ (error_response "unauthorized:vote" None)
         | Some u =>
             let! chat := read (call_getChatById chatId) (getChatById env chatId) in
             match chat with
             | None => return_ (error_response "not_found:chat" None)
             | Some chat =>
                 if negb (String.eqb (chat_userId chat) (user_id u))
                 then return_ (error_response "forbidden:vote" None)
                 else
                   do! write (call_voteMessage chatId messageId type)
                         (voteMessage env chatId messageId type) in
                   return_ (response (body_text "Message voted successfully") 200)
             end
         end)
      (fun error =>
         do! emit (console_error "Error in PATCH /api/vote:" (Some error)) in
         return_ (error_response "internal_server_error:api"
                    (Some "An unexpected error occurred.")))).

End WithEnv.
End VoteRoute.

(** ** The generation producer *)

(** Modelled from the spec: the engine behind [streamText] is not part of
    the route files.  Following the design of the Generation Producer, it
    emits its chunks, invokes the completion hook once all of them are
    known, and only then signals termination with the terminator chunk; a
    hook that rejects makes the stream fail instead of terminating. *)
Definition generate {Db} (chunks : list Chunk) (hook : M (Db := Db) unit)
  : M (Db := Db) Stream :=
  do! hook in
  ret (chunks ++ [finish_part]).

(** ** An in-memory environment *)

(** Modelled from the spec: the records behind [@/lib/db/queries], which is
    not part of the route files.  Conversations, messages in creation order,
    at most one vote per message, and stream ids in mint order with the
    conversation each belongs to; [clock] is the time the queries read. *)
Record MemDb : Type := {
  chats : list Chat;
  messages : list DBMessage;
  votes : list Vote;
  streams : list (string * string);
  clock : Z;
}.

Module Mem.

Definition chat_is (i : string) (c : Chat) : bool := String.eqb (chat_id c) i.

Definition owned_by (uid : string) (d : MemDb) (m : DBMessage) : bool :=
  match List.find (chat_is (dbm_chatId m)) (chats d) with
  | Some c => String.eqb (chat_userId c) uid
  | None => false
  end.

(** Modelled from the spec: [getConversation(id)]. *)
Definition getChatById (i : JsValue) (d : MemDb) : Exn + option Chat :=
  match i with
  | JString i => inr (List.find (chat_is i) (chats d))
  | _ => inl (ChatSDKError "bad_request:database" (Some "Failed to get chat by id"))
  end.

(** Modelled from the spec: [listMessages(conversationId)], creation order. *)
Definition getMessagesByChatId (i : string) (d : MemDb) : Exn + list DBMessage :=
  inr (List.filter (fun m => String.eqb (dbm_chatId m) i) (messages d)).

(** Modelled from the spec: [listStreamIds(conversationId)], mint order. *)
Definition getStreamIdsByChatId (i : string) (d : MemDb) : Exn + list string :=
  inr (List.map fst (List.filter (fun s => String.eqb (snd s) i) (streams d))).

(** Modelled from the spec: [countUserMessages(userId, sinceHours)]. *)
Definition getMessageCountByUserId (uid : string) (hours : Z) (d : MemDb)
  : Exn + Z :=
  inr (Z.of_nat (length (List.filter
         (fun m => owned_by uid d m && String.eqb (dbm_role m) "user"
                   && (clock d - hours * 3600000 <=? dbm_createdAt m))
         (messages d)))).

(** Modelled from the spec: [getVotes(conversationId)]. *)
Definition getVotesByChatId (i : string) (d : MemDb) : Exn + list Vote :=
  inr (List.filter (fun v => String.eqb (vote_chatId v) i) (votes d)).

(** Modelled from the spec: [createConversation(id, ownerId, title, visibility)]. *)
Definition saveChat (i uid title visibility : string) (d : MemDb)
  : (Exn + unit) * MemDb :=
  (inr tt,
   {| chats := chats d ++ [{| chat_id := i; chat_userId := uid;
                              chat_title := title;
                              chat_visibility := visibility;
                              chat_createdAt := clock d |}];
      messages := messages d; votes := votes d; streams := streams d;
      clock := clock d |}).

(** Modelled from the spec: [saveMessages([...])].  With [writable] off the
    write is refused and nothing is stored. *)
Definition saveMessages (writable : bool) (rows : list DBMessage) (d : MemDb)
  : (Exn + unit) * MemDb :=
  if writable then
    (inr tt,
     {| chats := chats d; messages := messages d ++ rows; votes := votes d;
        streams := streams d; clock := clock d |})
  else
    (inl (ChatSDKError "bad_request:database" (Some "Failed to save messages")), d).

(** Modelled from the spec: [mintStreamId(streamId, conversationId)]. *)
Definition createStreamId (sid cid : string) (d : MemDb) : (Exn + unit) * MemDb :=
  (inr tt,
   {| chats := chats d; messages := messages d; votes := votes d;
      streams := streams d ++ [(sid, cid)]; clock := clock d |}).

(** Modelled from the spec: [deleteConversation(id)], which cascades to the
    conversation's messages, votes and stream ids. *)
Definition deleteChatById (i : string) (d : MemDb) : (Exn + option Chat) * MemDb :=
  (inr (List.find (chat_is i) (chats d)),
   {| chats := List.filter (fun c => negb (chat_is i c)) (chats d);
      messages := List.filter (fun m => negb (String.eqb (dbm_chatId m) i)) (messages d);
      votes := List.filter (fun v => negb (String.eqb (vote_chatId v) i)) (votes d);
      streams := List.filter (fun s => negb (String.eqb (snd s) i)) (streams d);
      clock := clock d |}).

(** Modelled from the spec: [upsertVote(conversationId, messageId, type)];
    the last write wins, and a direction other than up is stored as down. *)
Definition voteMessage (c m t : JsValue) (d : MemDb) : (Exn + unit) * MemDb :=
  match c, m with
  | JString c, JString m =>
      (inr tt,
       {| chats := chats d; messages := messages d;
          votes :=
            List.filter (fun v => negb (String.eqb (vote_messageId v) m)) (votes d)
            ++ [{| vote_chatId := c; vote_messageId := m;
                   vote_isUpvoted :=
                     match t with JString t => String.eqb t "up" | _ => false end |}];
          streams := streams d; clock := clock d |})
  | _, _ =>
      (inl (ChatSDKError "bad_request:database" (Some "Failed to vote message")), d)
  end.

Definition entitlementsByUserType (userType : string) : option Entitlements :=
  if String.eqb userType "guest" then Some {| maxMessagesPerDay := 20 |}
  else if String.eqb userType "regular" then Some {| maxMessagesPerDay := 100 |}
  else None.

Definition to_ui (m : DBMessage) : UIMessage :=
  {| msg_id := dbm_id m; msg_role := dbm_role m; msg_content := None;
     msg_parts := dbm_parts m;
     msg_experimental_attachments := Some (dbm_attachments m) |}.

Definition appendClientMessage (previous : list DBMessage) (m : UIMessage)
  : list UIMessage :=
  List.map to_ui previous ++ [m].

Definition streamText (_ : StreamTextOptions) : list Chunk :=
  [text_delta "Hel"; text_delta "lo"; finish_part].

Definition getTrailingMessageId (ms : list ResponseMessage) : option string :=
  match last ms with
  | Some m => Some (rm_id m)
  | None => None
  end.

Definition appendResponseMessages (m : UIMessage) (rs : list ResponseMessage)
  : Exn + UIMessage :=
  inr {| msg_id := default "" (getTrailingMessageId rs); msg_role := "assistant";
         msg_content := Some "Hello"; msg_parts := [JString "Hello"];
         msg_experimental_attachments := None |}.

Definition JSON_stringify (m : DBMessage) : string :=
  "{id:" +:+ dbm_id m +:+ ",chatId:" +:+ dbm_chatId m
  +:+ ",role:" +:+ dbm_role m +:+ "}".

(** A backend on which every stream is still live, one on which every
    stream has concluded, and no backend at all. *)
Definition live : ResumableStreamContext :=
  {| resumableStream := fun _ s => inr (Some (text_delta "Hel" :: s)) |}.

Definition concluded : ResumableStreamContext :=
  {| resumableStream := fun _ _ => inr None |}.

Definition no_redis (_ : nat) : string + ResumableStreamContext :=
  inl "REDIS_URL environment variable is not set".

Definition env (writable : bool)
    (backend : nat -> string + ResumableStreamContext) : Env MemDb :=
  Build_Env MemDb
    getChatById getMessagesByChatId getStreamIdsByChatId
    getMessageCountByUserId getVotesByChatId
    saveChat (saveMessages writable) createStreamId deleteChatById voteMessage
    entitlementsByUserType
    (fun _ => inr "New chat")
    appendClientMessage streamText getTrailingMessageId appendResponseMessages
    JSON_stringify
    backend.

End Mem.

(** ** The channel behind a stream id *)

Module Channel.

(** Modelled from the spec: the Channel Backend and the Resumable Stream
    Manager live in the [resumable-stream] package, not in the route files.
    A channel holds the chunks accepted so far; a reader that attaches is
    first handed everything buffered, in order, and is then sent each live
    chunk as it is published; it takes chunks one at a time.  The channel
    closes with the terminator and may later be reclaimed, after which
    attach finds nothing. *)
Record Reader : Type := {
  inbox : list Chunk;      (* handed over, not yet taken *)
  received : list Chunk;   (* taken, oldest first *)
}.

Record State : Type := {
  buffer : list Chunk;
  closed : bool;
  reclaimed : bool;
  readers : gmap nat Reader;
}.

Inductive Action : Type :=
| Publish (c : Chunk)
| Attach (r : nat)
| Receive (r : nat)
| Reclaim.

Definition is_terminator (c : Chunk) : bool :=
  match c with finish_part => true | _ => false end.

Definition deliver (c : Chunk) (rd : Reader) : Reader :=
  {| inbox := inbox rd ++ [c]; received := received rd |}.

Definition init : State :=
  {| buffer := []; closed := false; reclaimed := false; readers := ∅ |}.

(** Modelled from the spec: one move of the publisher, of a reader or of the
    backend; [None] when the move is not possible in this state. *)
Definition step (s : State) (a : Action) : option State :=
  match a with
  | Publish c =>
      if closed s then None
      else Some {| buffer := buffer s ++ [c];
                   closed := is_terminator c;
                   reclaimed := reclaimed s;
                   readers := deliver c <$> readers s |}
  | Attach r =>
      if reclaimed s then None
      else
        match readers s !! r with
        | Some _ => None
        | None =>
            Some {| buffer := buffer s; closed := closed s;
                    reclaimed := reclaimed s;
                    readers :=
                      <[r := {| inbox := buffer s; received := [] |}]> (readers s) |}
        end
  | Receive r =>
      match readers s !! r with
      | Some rd =>
          match inbox rd with
          | c :: rest =>
              Some {| buffer := buffer s; closed := closed s;
                      reclaimed := reclaimed s;
                      readers :=
                        <[r := {| inbox := rest; received := received rd ++ [c] |}]>
                          (readers s) |}
          | [] => None
          end
      | None => None
      end
  | Reclaim =>
      if closed s
      then Some {| buffer := buffer s; closed := true; reclaimed := true;
                   readers := readers s |}
      else None
  end.

Fixpoint run (s : State) (acts : list Action) : option State :=
  match acts with
  | [] => Some s
  | a :: rest =>
      match step s a with
      | Some s' => run s' rest
      | None => None
      end
  end.

(** The chunks the publisher emitted along a schedule, in emission order. *)
Fixpoint published (acts : list Action) : list Chunk :=
  match acts with
  | [] => []
  | Publish c :: rest => c :: published rest
  | _ :: rest => published rest
  end.

(** A reader's stream has terminated: the channel is closed and nothing is
    left for the reader to take. *)
Definition terminated (s : State) (rd : Reader) : Prop :=
  closed s = true ∧ inbox rd = [].

(** Every reader holds, taken or still to take, exactly what has been
    published. *)
Definition complete (s : State) : Prop :=
  forall r rd, readers s !! r = Some rd -> received rd ++ inbox rd = buffer s.

End Channel.

(** ** Vocabulary of the properties *)

Definition is_attach (e : Event) : bool :=
  match e with call_resumableStream _ => true | _ => false end.

(** The writes, and the calls to [resumableStream], in a trace. *)
Definition writes (t : list Event) : list Event := List.filter is_write t.
Definition attaches (t : list Event) : list Event := List.filter is_attach t.


(** A resume request that gets as far as the ownership check: the backend
    handle [ctx] is at hand (leaving the process in [w1]), the request names
    conversation [chatId], [u] is signed in and the conversation exists. *)
Definition resumes {Db} (env : Env Db) (request : Request) (w w1 : World Db)
    (ctx : ResumableStreamContext) (chatId : string) (u : User) (chat : Chat)
  : Prop :=
  ChatRoute.getStreamContext env w = (Value (Some ctx), w1) /\
  searchParams_get (searchParams request) "chatId" = Some chatId /\
  chatId <> "" /\
  session_user (auth request) = Some u /\
  getChatById env (JString chatId) (db w) = inr (Some chat).

(** The requester owns the conversation, or it is not private. *)
Definition may_read (u : User) (chat : Chat) : Prop :=
  chat_visibility chat <> "private" \/ chat_userId chat = user_id u.

(** The same request made under another session. *)
Definition with_auth (request : Request) (session : option Session) : Request :=
  {| searchParams := searchParams request; json := json request;
     auth := session; now := now request; uuid := uuid request;
     geolocation := geolocation request |}.

(** ** Scenarios *)

Module Scenario.

Definition alice : User := {| user_id := "alice"; user_type := "regular" |}.
Definition bob : User := {| user_id := "bob"; user_type := "guest" |}.

Definition as_user (u : User) : option Session := Some {| user := Some u |}.

Definition no_hints : RequestHints :=
  {| longitude := None; latitude := None; city := None; country := None |}.

Definition empty_db : MemDb :=
  {| chats := []; messages := []; votes := []; streams := []; clock := 100000 |}.

(** A process that has not yet touched the stream backend. *)
Definition boot (d : MemDb) : World MemDb :=
  {| db := d; globalStreamContext := None; trace := [] |}.

Definition chat1 : Chat :=
  {| chat_id := "c1"; chat_userId := "alice"; chat_title := "Greetings";
     chat_visibility := "private"; chat_createdAt := 1000 |}.

Definition chat2 : Chat :=
  {| chat_id := "c2"; chat_userId := "alice"; chat_title := "Open house";
     chat_visibility := "public"; chat_createdAt := 2000 |}.

Definition question : DBMessage :=
  {| dbm_id := "m1"; dbm_chatId := "c1"; dbm_role := "user";
     dbm_parts := [JString "Hi"]; dbm_attachments := [];
     dbm_createdAt := 70000 |}.

(** An assistant reply in [chat1], persisted at [created]. *)
Definition reply (created : Z) : DBMessage :=
  {| dbm_id := "m2"; dbm_chatId := "c1"; dbm_role := "assistant";
     dbm_parts := [JString "Hello"]; dbm_attachments := [];
     dbm_createdAt := created |}.

(** Both chats, the given messages, and the given stream ids; the clock
    reads 100 seconds. *)
Definition db_with (ms : list DBMessage) (ss : list (string * string)) : MemDb :=
  {| chats := [chat1; chat2]; messages := ms; votes := []; streams := ss;
     clock := 100000 |}.

(** A request at 100 seconds with the given query parameters, JSON body and
    signed-in user. *)
Definition request_at (params : list (string * string)) (body : option JsValue)
    (who : option Session) : Request :=
  {| searchParams := params; json := body; auth := who; now := 100000;
     uuid := "s2"; geolocation := no_hints |}.

Definition resume (chatId : string) (who : User) : Request :=
  request_at [("chatId", chatId)] None (as_user who).

Definition chat3 : Chat :=
  {| chat_id := "c3"; chat_userId := "bob"; chat_title := "Busy day";
     chat_visibility := "private"; chat_createdAt := 3000 |}.

(** One of the many questions [bob] asked today. *)
Definition asked : DBMessage :=
  {| dbm_id := "q"; dbm_chatId := "c3"; dbm_role := "user";
     dbm_parts := [JString "Again"]; dbm_attachments := [];
     dbm_createdAt := 90000 |}.

Definition busy_db : MemDb :=
  {| chats := [chat1; chat2; chat3]; messages := replicate 21 asked;
     votes := []; streams := []; clock := 100000 |}.

(** The body of a start-generation request on conversation [chatId]. *)
Definition start_body (chatId : string) : JsValue :=
  JObject
    [("id", JString chatId);
     ("message",
      JObject [("id", JString "m3"); ("role", JString "user");
               ("content", JString "Hi"); ("parts", JArray [JString "Hi"])]);
     ("selectedChatModel", JString "chat-model");
     ("selectedVisibilityType", JString "private")].

Definition start (chatId : string) (who : User) : Request :=
  request_at [("chatId", chatId)] (Some (start_body chatId)) (as_user who).

(** The body of a cast-vote request. *)
Definition vote_body (direction : string) : JsValue :=
  JObject [("chatId", JString "c1"); ("messageId", JString "m2");
           ("type", JString direction)].

Definition cast (direction : string) (who : User) : Request :=
  request_at [("id", "c1")] (Some (vote_body direction)) (as_user who).

(** A process that already holds the handle [c]. *)
Definition warm (c : ResumableStreamContext) (d : MemDb) : World MemDb :=
  {| db := d; globalStreamContext := Some c; trace := [] |}.

(** Two readers attach before the first chunk and between the chunks, a
    third after the terminator. *)
Definition schedule : list Channel.Action :=
  [Channel.Attach 1; Channel.Publish (text_delta "Hel"); Channel.Attach 2;
   Channel.Receive 1; Channel.Publish (text_delta "lo");
   Channel.Publish finish_part; Channel.Attach 3;
   Channel.Receive 2; Channel.Receive 2; Channel.Receive 2].

Definition always (c : ResumableStreamContext) (_ : nat)
  : string + ResumableStreamContext := inr c.

(** The in-memory environment over a backend on which every stream has
    concluded, over one on which every stream is live, and without one. *)
Definition concluded_env : Env MemDb := Mem.env true (always Mem.concluded).
Definition live_env : Env MemDb := Mem.env true (always Mem.live).
Definition offline_env : Env MemDb := Mem.env true Mem.no_redis.

(** The same without a backend and with a database that refuses to save
    messages. *)
Definition readonly_env : Env MemDb := Mem.env false Mem.no_redis.

(** What the engine reports when the generation for [start "c1" alice] is
    over. *)
Definition finished : list ResponseMessage :=
  [{| rm_id := "m3"; rm_role := "user" |};
   {| rm_id := "m4"; rm_role := "assistant" |}].

Definition asked_message : UIMessage :=
  {| msg_id := "m3"; msg_role := "user"; msg_content := Some "Hi";
     msg_parts := [JString "Hi"]; msg_experimental_attachments := None |}.

(** A backend whose construction fails once and succeeds from then on. *)
Definition flaky (n : nat) : string + ResumableStreamContext :=
  match n with
  | O => inl "REDIS_URL environment variable is not set"
  | S _ => inr Mem.live
  end.

End Scenario.

(** ** Further vocabulary *)

(** The handler's promise rejected instead of resolving to a response. *)
Definition is_unhandled (r : Response) : bool :=
  match r with unhandled _ => true | _ => false end.

(** The writes and the calls to [resumableStream] in a trace, in order. *)
Definition effects (t : list Event) : list Event :=
  List.filter (fun e => is_write e || is_attach e) t.

(** The row POST saves for the user's message. *)
Definition user_row (body : PostRequestBody) (request : Request) : DBMessage :=
  {| dbm_id := msg_id (message body);
     dbm_chatId := id body;
     dbm_role := "user";
     dbm_parts := msg_parts (message body);
     dbm_attachments :=
       default [] (msg_experimental_attachments (message body));
     dbm_createdAt := now request |}.

(** The producer stream POST builds for a parsed body, given the messages
    the chat held before. *)
Definition producer_for {Db} (env : Env Db) (body : PostRequestBody)
    (request : Request) (previous : list DBMessage) : Stream :=
  ChatRoute.producer env (selectedChatModel body) (geolocation request)
    (appendClientMessage env previous (message body)).

(** How the catch block of the chat route answers a thrown error: a
    [ChatSDKError] with its own response, anything else with
    [internal_server_error:api]. *)
Definition caught (error : Exn) : Response :=
  match error with
  | ChatSDKError code cause => error_response code cause
  | Error _ =>
      error_response "internal_server_error:api"
        (Some "An unexpected error occurred.")
  end.

(** The handle [getStreamContext] yields in [w]: the one held, or else
    the one a construction attempted now returns. *)
Definition handle_after {Db} (env : Env Db) (w : World Db)
  : option ResumableStreamContext :=
  match globalStreamContext w with
  | Some c => Some c
  | None =>
      match createResumableStreamContext env (constructions (trace w)) with
      | inr c => Some c
      | inl _ => None
      end
  end.

(** The title under which POST saves a chat it has to create: there is one
    exactly when the lookup of the body's chat id in [d] finds no chat and
    the title generator returns. *)
Definition fresh_title {Db} (env : Env Db) (body : PostRequestBody) (d : Db)
  : option string :=
  match getChatById env (JString (id body)) d with
  | inr None =>
      match generateTitleFromUserMessage env (message body) with
      | inr title => Some title
      | inl _ => None
      end
  | _ => None
  end.

(** The database once POST has made sure the chat exists: [d] itself, or
    [d] after [saveChat] when the chat had to be created. *)
Definition chat_ensured {Db} (env : Env Db) (body : PostRequestBody) (u : User)
    (d : Db) : Db :=
  match fresh_title env body d with
  | Some title =>
      (saveChat env (id body) (user_id u) title (selectedVisibilityType body)
         d).2
  | None => d
  end.

(** ** Further scenarios *)

Module Cases.
Import Scenario.

(** The in-memory environment over a live backend, except that listing the
    stream ids fails in the database. *)
Definition failing_streams_env : Env MemDb :=
  Build_Env MemDb
    Mem.getChatById Mem.getMessagesByChatId
    (fun _ _ =>
       inl (ChatSDKError "bad_request:database"
              (Some "Failed to get stream ids by chat id")))
    Mem.getMessageCountByUserId Mem.getVotesByChatId
    Mem.saveChat (Mem.saveMessages true) Mem.createStreamId Mem.deleteChatById
    Mem.voteMessage Mem.entitlementsByUserType
    (fun _ => inr "New chat")
    Mem.appendClientMessage Mem.streamText Mem.getTrailingMessageId
    Mem.appendResponseMessages Mem.JSON_stringify
    (always Mem.live).

(** A start-generation body without the model choice. *)
Definition incomplete_body : JsValue :=
  JObject
    [("id", JString "c1");
     ("message",
      JObject [("id", JString "m3"); ("role", JString "user");
               ("parts", JArray [JString "Hi"])]);
     ("selectedVisibilityType", JString "private")].

(** A request nobody is signed in for. *)
Definition anonymous (params : list (string * string)) (body : option JsValue)
  : Request :=
  request_at params body None.

(** A vote body without the message id. *)
Definition vote_without_message : JsValue :=
  JObject [("chatId", JString "c1"); ("type", JString "up")].

(** What the engine reports when it produced no assistant message. *)
Definition nothing_said : list ResponseMessage :=
  [{| rm_id := "m3"; rm_role := "user" |}].

End Cases.

(** * Properties *)

(** Symbolic execution of a handler: case analysis on the innermost
    scrutinee, one call of the environment at a time. *)
Ltac exec_step :=
  match goal with
  | |- context [match ?X with _ => _ end] =>
      lazymatch X with
      | context [match _ with _ => _ end] => fail
      | _ => destruct X eqn:?
      end
  end;
  cbn -[ChatRoute.producer ChatRoute.restored attaches writes constructions
        includes] in *.

Ltac unfold_m :=
  unfold respond, try_catch, read, write, bind, lift, emit, ret, return_, throw,
    get_globalStreamContext, get_trace, set_globalStreamContext.

Lemma attaches_snoc (t : list Event) (e : Event) :
  attaches (t ++ [e]) = attaches t ++ (if is_attach e then [e] else []).
Proof.
  unfold attaches. rewrite List.filter_app. simpl.
  destruct (is_attach e); reflexivity.
Qed.

Lemma writes_snoc (t : list Event) (e : Event) :
  writes (t ++ [e]) = writes t ++ (if is_write e then [e] else []).
Proof.
  unfold writes. rewrite List.filter_app. simpl.
  destruct (is_write e); reflexivity.
Qed.

Lemma constructions_snoc (t : list Event) (e : Event) :
  constructions (t ++ [e]) =
  (constructions t + if is_construction e then 1 else 0)%nat.
Proof.
  unfold constructions. rewrite filter_app, length_app. f_equal.
  destruct e; reflexivity.
Qed.

Ltac trace_simpl :=
  rewrite ?attaches_snoc, ?writes_snoc; cbn [is_attach is_write];
  rewrite ?app_nil_r.

Lemma eqb_empty_false (s : string) : s <> "" -> String.eqb s "" = false.
Proof. intros H. now apply String.eqb_neq. Qed.

(** The staleness test in milliseconds: the truncated difference exceeds 15
    exactly when at least 16 full seconds have passed. *)
Lemma differenceInSeconds_gt_15 (later earlier : Z) :
  (differenceInSeconds later earlier >? 15) = true <-> 16000 <= later - earlier.
Proof.
  unfold differenceInSeconds. rewrite Z.gtb_ltb, Z.ltb_lt.
  split; intros H; Z.to_euclidean_division_equations; lia.
Qed.

(** ** The stream context *)

Section StreamContext.
Context {Db : Type} (env : Env Db).

Lemma getStreamContext_cached (w : World Db) (c : ResumableStreamContext) :
  globalStreamContext w = Some c ->
  ChatRoute.getStreamContext env w = (Value (Some c), w).
Proof.
  intros H. unfold ChatRoute.getStreamContext, bind, get_globalStreamContext, ret.
  rewrite H. now rewrite H.
Qed.

Lemma getStreamContext_absent (w : World Db) :
  globalStreamContext w = None ->
  ChatRoute.getStreamContext env w =
  match createResumableStreamContext env (constructions (trace w)) with
  | inr c =>
      (Value (Some c),
       {| db := db w; globalStreamContext := Some c;
          trace := trace w ++ [call_createResumableStreamContext] |})
  | inl message =>
      (Value None,
       {| db := db w; globalStreamContext := None;
          trace := (trace w ++ [call_createResumableStreamContext]) ++
            [if includes message "REDIS_URL"
             then console_log
                    " > Resumable streams are disabled due to missing REDIS_URL"
             else console_error "Error creating resumable stream context:"
                    (Some (Error message))] |})
  end.
Proof.
  intros H.
  unfold ChatRoute.getStreamContext, bind, get_globalStreamContext, get_trace,
    emit, set_globalStreamContext, ret.
  rewrite H. simpl.
  destruct (createResumableStreamContext env (constructions (trace w))) as [m|c];
    simpl; [|reflexivity].
  destruct (includes m "REDIS_URL"); simpl; rewrite H; reflexivity.
Qed.

(** C5 (amended).  The handle is initialised lazily and only a success is
    memoized.  An access that finds a handle returns it and does nothing
    else.  An access that finds none calls [createResumableStreamContext]
    once more, whatever happened before: on success the handle is recorded
    and returned, and the call is the only event; on failure the failure
    is logged ([console.log] when the message names [REDIS_URL],
    [console.error] with the error otherwise), [null] is returned and
    nothing is recorded.  The database is never touched. *)
Theorem getStreamContext_lifecycle (w : World Db) :
  let '(o, w') := ChatRoute.getStreamContext env w in
  db w' = db w /\
  match globalStreamContext w with
  | Some c => o = Value (Some c) /\ w' = w
  | None =>
      constructions (trace w') = S (constructions (trace w)) /\
      match createResumableStreamContext env (constructions (trace w)) with
      | inr c =>
          o = Value (Some c) /\ globalStreamContext w' = Some c /\
          trace w' = trace w ++ [call_createResumableStreamContext]
      | inl message =>
          o = Value None /\ globalStreamContext w' = None /\
          trace w' =
          trace w ++
          [call_createResumableStreamContext;
           if includes message "REDIS_URL"
           then console_log
                  " > Resumable streams are disabled due to missing REDIS_URL"
           else console_error "Error creating resumable stream context:"
                  (Some (Error message))]
      end
  end.
Proof.
  destruct (globalStreamContext w) as [c|] eqn:Hg.
  - rewrite (getStreamContext_cached w c Hg). auto.
  - rewrite (getStreamContext_absent w Hg).
    destruct (createResumableStreamContext env (constructions (trace w)))
      as [m|c]; cbn [db trace globalStreamContext];
      (split; [reflexivity|]); split.
    + rewrite !constructions_snoc.
      destruct (includes m "REDIS_URL"); simpl; lia.
    + rewrite <- app_assoc. auto.
    + rewrite constructions_snoc. simpl. lia.
    + auto.
Qed.

Lemma getStreamContext_db (w w1 : World Db) o :
  ChatRoute.getStreamContext env w = (o, w1) -> db w1 = db w.
Proof.
  intros H.
  destruct (globalStreamContext w) as [c|] eqn:Hg.
  - rewrite (getStreamContext_cached w c Hg) in H. congruence.
  - rewrite (getStreamContext_absent w Hg) in H.
    destruct (createResumableStreamContext env _); inversion H; reflexivity.
Qed.

End StreamContext.

(** C5 (counterexample).  Without [REDIS_URL] the first access fails and
    leaves no handle, and the second access calls
    [createResumableStreamContext] again; when the second construction
    succeeds, the second access even returns a handle. *)
Lemma getStreamContext_retries_after_failure :
  let first := ChatRoute.getStreamContext Scenario.offline_env
                 (Scenario.boot Scenario.empty_db) in
  let second := ChatRoute.getStreamContext Scenario.offline_env first.2 in
  let second' :=
    ChatRoute.getStreamContext (Mem.env true Scenario.flaky) first.2 in
  first.1 = Value None /\
  globalStreamContext first.2 = None /\
  constructions (trace first.2) = 1%nat /\
  second.1 = Value None /\
  constructions (trace second.2) = 2%nat /\
  second'.1 = Value (Some Mem.live) /\
  constructions (trace second'.2) = 2%nat.
Proof. vm_compute. repeat split. Qed.

(** ** Degradation without a backend *)

Section Passthrough.
Context {Db : Type} (env : Env Db).


End Passthrough.

(** ** Resuming *)

Section Resume.
Context {Db : Type} (env : Env Db).

(** What GET does once the ownership check is passed, as a rewriting step:
    everything before it is determined by [resumes]. *)
Lemma GET_after_lookup (request : Request) (w w1 : World Db)
    (ctx : ResumableStreamContext) (chatId : string) (u : User) (chat : Chat) :
  resumes env request w w1 ctx chatId u chat ->
  ChatRoute.GET env request w =
  respond
    (try_catch
       (if String.eqb (chat_visibility chat) "private"
           && negb (String.eqb (chat_userId chat) (user_id u))
        then return_ (error_response "forbidden:chat" None)
        else
          let! streamIds :=
            read (call_getStreamIdsByChatId chatId)
              (getStreamIdsByChatId env chatId) in
          if (length streamIds =? 0)%nat
          then return_ (error_response "not_found:stream" None)
          else
            let recentStreamId := last streamIds in
            if negb (truthy_param recentStreamId)
            then return_ (error_response "not_found:stream"
                            (Some "No recent stream ID found."))
            else
              let recentStreamId := default "" recentStreamId in
              let! stream :=
                (do! emit (call_resumableStream recentStreamId) in
                 lift (resumableStream ctx recentStreamId [])) in
              match stream with
              | None =>
                  let! messages :=
                    read (call_getMessagesByChatId chatId)
                      (getMessagesByChatId env chatId) in
                  return_
                    (response
                       (body_stream
                          (ChatRoute.restored env messages (now request) []))
                       200)
              | Some stream => return_ (response (body_stream stream) 200)
              end)
       (fun error =>
          do! emit (console_error "Unhandled error in GET /api/chat:"
                      (Some error)) in
          match error with
          | ChatSDKError code cause => return_ (error_response code cause)
          | _ =>
              return_ (error_response "internal_server_error:api"
                         (Some "An unexpected error occurred."))
          end))
    {| db := db w1; globalStreamContext := globalStreamContext w1;
       trace := trace w1 ++ [call_getChatById (JString chatId)] |}.
Proof.
  intros (Hctx & Hparam & Hne & Hu & Hchat).
  pose proof (getStreamContext_db env w w1 _ Hctx) as Hdb.
  unfold ChatRoute.GET, respond, try_catch, bind. rewrite Hctx, Hparam.
  cbn [truthy_param negb default from_option Datatypes.id].
  rewrite (eqb_empty_false _ Hne). cbn [negb]. rewrite Hu.
  unfold read, bind, emit, lift, ret. cbn [db trace globalStreamContext].
  rewrite Hdb, Hchat. reflexivity.
Qed.

Lemma may_read_check (u : User) (chat : Chat) :
  may_read u chat ->
  String.eqb (chat_visibility chat) "private"
  && negb (String.eqb (chat_userId chat) (user_id u)) = false.
Proof.
  intros [H|H].
  - apply String.eqb_neq in H. now rewrite H.
  - apply String.eqb_eq in H. rewrite H. apply andb_false_r.
Qed.

(** C4.  A resume request by a signed-in user who may read an existing
    conversation for which no stream id was ever minted is answered with
    [not_found:stream]; nothing is attached and nothing is written. *)
Theorem GET_without_stream_id_not_found
    (request : Request) (w w1 : World Db) (ctx : ResumableStreamContext)
    (chatId : string) (u : User) (chat : Chat) :
  resumes env request w w1 ctx chatId u chat ->
  may_read u chat ->
  getStreamIdsByChatId env chatId (db w) = inr [] ->
  let '(r, w') := ChatRoute.GET env request w in
  r = error_response "not_found:stream" None /\
  db w' = db w /\
  attaches (trace w') = attaches (trace w1) /\
  writes (trace w') = writes (trace w1).
Proof.
  intros Hres Hmay Hids.
  rewrite (GET_after_lookup _ _ _ _ _ _ _ Hres).
  destruct Hres as (Hctx & _). apply getStreamContext_db in Hctx.
  rewrite (may_read_check _ _ Hmay).
  unfold respond, try_catch, bind, read, bind, emit, lift, ret, return_.
  cbn [db trace globalStreamContext]. rewrite Hctx, Hids.
  cbn [length Nat.eqb db trace].
  repeat trace_simpl. auto.
Qed.

(** C1 (amended).  When the attach on the latest stream id returns [null],
    the resume request is answered with status 200 and a stream that holds
    exactly one [append-message] part carrying the serialized most recent
    message if that message exists, has role [assistant] and was created
    less than 16 seconds (16000 ms) before the request; otherwise the
    stream is empty. *)
Theorem GET_concluded_stream_fallback
    (request : Request) (w w1 : World Db) (ctx : ResumableStreamContext)
    (chatId : string) (u : User) (chat : Chat)
    (streamIds : list string) (recentStreamId : string)
    (messages : list DBMessage) :
  resumes env request w w1 ctx chatId u chat ->
  may_read u chat ->
  getStreamIdsByChatId env chatId (db w) = inr streamIds ->
  last streamIds = Some recentStreamId ->
  recentStreamId <> "" ->
  resumableStream ctx recentStreamId [] = inr None ->
  getMessagesByChatId env chatId (db w) = inr messages ->
  exists s,
    (ChatRoute.GET env request w).1 = response (body_stream s) 200 /\
    match last messages with
    | None => s = []
    | Some m =>
        if decide (dbm_role m = "assistant" /\
                   now request - dbm_createdAt m < 16000)
        then s = [data_part "append-message" (JSON_stringify env m)]
        else s = []
    end.
Proof.
  intros Hres Hmay Hids Hlast Hsid Hattach Hmsgs.
  exists (ChatRoute.restored env messages (now request) []). split.
  - rewrite (GET_after_lookup _ _ _ _ _ _ _ Hres).
    destruct Hres as (Hctx & _). apply getStreamContext_db in Hctx.
    rewrite (may_read_check _ _ Hmay).
    unfold respond, try_catch, bind, read, bind, emit, lift, ret, return_.
    cbn [db trace globalStreamContext]. rewrite Hctx, Hids.
    destruct streamIds as [|s0 rest]; [discriminate|].
    cbn [length Nat.eqb]. rewrite Hlast.
    cbn [truthy_param negb default from_option Datatypes.id].
    rewrite (eqb_empty_false _ Hsid). cbn [negb db trace globalStreamContext].
    rewrite Hattach. cbn [db trace globalStreamContext].
    rewrite ?Hctx, Hmsgs. reflexivity.
  - unfold ChatRoute.restored.
    destruct (last messages) as [m|]; [|reflexivity].
    pose proof (differenceInSeconds_gt_15 (now request) (dbm_createdAt m)) as Hd.
    destruct (String.eqb_spec (dbm_role m) "assistant") as [Hr|Hr]; cbn [negb].
    + destruct (differenceInSeconds (now request) (dbm_createdAt m) >? 15).
      * rewrite decide_False; [reflexivity|]. intros [_ H].
        assert (16000 <= now request - dbm_createdAt m) by now apply Hd. lia.
      * rewrite decide_True; [reflexivity|]. split; [assumption|].
        destruct (Z.lt_ge_cases (now request - dbm_createdAt m) 16000) as [|H];
          [assumption|]. apply Hd in H. discriminate.
    + rewrite decide_False; [reflexivity|]. tauto.
Qed.

(** C10.  For a signed-in requester who does not own the conversation: if
    the conversation is private the resume request is answered with
    [forbidden:chat] and nothing is attached.  If it is not private (in
    particular if it is public) the request is not stopped: the handler
    goes on exactly as it does for the owner, which means that with a
    non-empty latest stream id it calls [resumableStream] on that id and
    answers 200 with the live stream it gets (attach) or, when it gets
    [null], with the stream restored from the chat's messages (replay);
    without stream ids it answers [not_found:stream]; and only an error
    thrown by a query is answered as an error. *)
Theorem GET_forbidden_only_when_private
    (request : Request) (w w1 : World Db) (ctx : ResumableStreamContext)
    (chatId : string) (u : User) (chat : Chat) :
  resumes env request w w1 ctx chatId u chat ->
  chat_userId chat <> user_id u ->
  (chat_visibility chat = "private" ->
   let '(r, w') := ChatRoute.GET env request w in
   r = error_response "forbidden:chat" None /\
   attaches (trace w') = attaches (trace w1)) /\
  (chat_visibility chat <> "private" ->
   ChatRoute.GET env request w =
   ChatRoute.GET env
     (with_auth request
        (Some {| user := Some {| user_id := chat_userId chat;
                                 user_type := user_type u |} |}))
     w /\
   let '(r, w') := ChatRoute.GET env request w in
   db w' = db w /\
   match getStreamIdsByChatId env chatId (db w) with
   | inl error =>
       r = caught error /\ attaches (trace w') = attaches (trace w1)
   | inr streamIds =>
       match last streamIds with
       | None =>
           r = error_response "not_found:stream" None /\
           attaches (trace w') = attaches (trace w1)
       | Some recentStreamId =>
           if String.eqb recentStreamId "" then
             r = error_response "not_found:stream"
                   (Some "No recent stream ID found.") /\
             attaches (trace w') = attaches (trace w1)
           else
             attaches (trace w') =
               attaches (trace w1) ++ [call_resumableStream recentStreamId] /\
             match resumableStream ctx recentStreamId [] with
             | inr (Some stream) => r = response (body_stream stream) 200
             | inr None =>
                 match getMessagesByChatId env chatId (db w) with
                 | inr messages =>
                     r = response
                           (body_stream
                              (ChatRoute.restored env messages (now request) []))
                           200
                 | inl error => r = caught error
                 end
             | inl error => r = caught error
             end
       end
   end).
Proof.
  intros Hres Hother. split; intros Hvis.
  - rewrite (GET_after_lookup _ _ _ _ _ _ _ Hres).
    apply String.eqb_neq in Hother. rewrite Hvis, Hother.
    cbn. trace_simpl. auto.
  - assert (resumes env
              (with_auth request
                 (Some {| user := Some {| user_id := chat_userId chat;
                                          user_type := user_type u |} |}))
              w w1 ctx chatId
              {| user_id := chat_userId chat; user_type := user_type u |} chat)
      as Hres'.
    { destruct Hres as (? & ? & ? & ? & ?). repeat split; assumption. }
    rewrite (GET_after_lookup _ _ _ _ _ _ _ Hres).
    rewrite (GET_after_lookup _ _ _ _ _ _ _ Hres').
    apply String.eqb_neq in Hvis. rewrite Hvis. split; [reflexivity|].
    destruct Hres as (Hctx & _). apply getStreamContext_db in Hctx.
    cbn [andb].
    unfold respond, try_catch, read, bind, emit, lift, ret, return_, throw.
    cbn [db trace globalStreamContext]. rewrite Hctx.
    destruct (getStreamIdsByChatId env chatId (db w)) as [error|streamIds].
    { destruct error; cbn [db trace caught]; repeat trace_simpl; auto. }
    destruct streamIds as [|s0 rest].
    { cbn. repeat trace_simpl. auto. }
    cbn [length Nat.eqb].
    destruct (last (s0 :: rest)) as [recentStreamId|] eqn:Hlast.
    2:{ apply last_None in Hlast. discriminate. }
    cbn [truthy_param negb default from_option Datatypes.id].
    destruct (String.eqb recentStreamId "").
    { cbn. repeat trace_simpl. auto. }
    cbn [negb db trace globalStreamContext].
    destruct (resumableStream ctx recentStreamId []) as [error|[stream|]].
    + destruct error; cbn [db trace caught]; repeat trace_simpl; auto.
    + cbn [db trace]. repeat trace_simpl. auto.
    + cbn [db trace globalStreamContext]. rewrite ?Hctx.
      destruct (getMessagesByChatId env chatId (db w)) as [error|messages].
      * destruct error; cbn [db trace caught]; repeat trace_simpl; auto.
      * cbn [db trace]. repeat trace_simpl. auto.
Qed.

End Resume.

(** ** Guards before writes *)

Section Guards.
Context {Db : Type} (env : Env Db).

(** C7.  A well-formed start-generation request by a signed-in user whose
    message count over the last 24 hours exceeds the daily maximum of the
    user's entitlement tier is answered with [rate_limit:chat]; the count
    query is the only call made, so no chat is created and no message is
    written. *)
Theorem POST_rate_limit_before_writes
    (request : Request) (w : World Db) (j : JsValue) (body : PostRequestBody)
    (u : User) (messageCount : Z) (tier : Entitlements) :
  json request = Some j ->
  postRequestBodySchema j = Some body ->
  session_user (auth request) = Some u ->
  getMessageCountByUserId env (user_id u) 24 (db w) = inr messageCount ->
  entitlementsByUserType env (user_type u) = Some tier ->
  messageCount > maxMessagesPerDay tier ->
  let '(r, w') := ChatRoute.POST env request w in
  r = error_response "rate_limit:chat" None /\
  db w' = db w /\
  trace w' = trace w ++ [call_getMessageCountByUserId (user_id u) 24] /\
  writes (trace w') = writes (trace w).
Proof.
  intros Hj Hbody Hu Hcount Htier Hover.
  unfold ChatRoute.POST. unfold_m.
  rewrite Hj, Hbody. cbn [db trace globalStreamContext].
  rewrite Hu. cbn [db trace globalStreamContext].
  rewrite Hcount, Htier.
  apply Z.gtb_gt in Hover. rewrite Hover.
  cbn [db trace]. trace_simpl. auto.
Qed.

(** C8.  A signed-in user who does not own the conversation cannot delete
    it and cannot vote in it: DELETE answers [forbidden:chat], PATCH on the
    vote route answers [forbidden:vote], and in both cases the database is
    unchanged and no write is called, so neither [deleteChatById] nor
    [voteMessage] is invoked. *)
Theorem non_owner_is_forbidden_before_writes
    (request : Request) (w : World Db) (u : User) (chat : Chat) :
  session_user (auth request) = Some u ->
  chat_userId chat <> user_id u ->
  (forall id,
     searchParams_get (searchParams request) "id" = Some id ->
     id <> "" ->
     getChatById env (JString id) (db w) = inr (Some chat) ->
     let '(r, w') := ChatRoute.DELETE env request w in
     r = error_response "forbidden:chat" None /\
     db w' = db w /\ writes (trace w') = writes (trace w)) /\
  (forall body chatId messageId type,
     json request = Some body ->
     get_prop body "chatId" = Some chatId ->
     get_prop body "messageId" = Some messageId ->
     get_prop body "type" = Some type ->
     truthy chatId = true -> truthy messageId = true -> truthy type = true ->
     getChatById env chatId (db w) = inr (Some chat) ->
     let '(r, w') := VoteRoute.PATCH env request w in
     r = error_response "forbidden:vote" None /\
     db w' = db w /\ writes (trace w') = writes (trace w)).
Proof.
  intros Hu Hother. apply String.eqb_neq in Hother. split.
  - intros id Hid Hne Hchat.
    unfold ChatRoute.DELETE. unfold_m. rewrite Hid.
    cbn [truthy_param negb default from_option Datatypes.id].
    rewrite (eqb_empty_false _ Hne). cbn [negb]. rewrite Hu.
    cbn [db trace globalStreamContext]. rewrite Hchat, Hother.
    cbn [negb db trace]. trace_simpl. auto.
  - intros body chatId messageId type Hbody Hc Hm Ht Tc Tm Tt Hchat.
    unfold VoteRoute.PATCH, VoteRoute.destructure. unfold_m.
    rewrite Hbody, Hc, Hm, Ht, Tc, Tm, Tt. cbn [negb orb]. rewrite Hu.
    cbn [db trace globalStreamContext]. rewrite Hchat, Hother.
    cbn [negb db trace]. trace_simpl. auto.
Qed.

(** The part of the body check that PATCH does make: a body that is a JSON
    value other than [null] with [chatId], [messageId] or [type] missing or
    falsy is answered with [bad_request:api] and nothing is called. *)
Lemma PATCH_missing_field_bad_request
    (request : Request) (w : World Db) (body chatId messageId type : JsValue) :
  json request = Some body ->
  get_prop body "chatId" = Some chatId ->
  get_prop body "messageId" = Some messageId ->
  get_prop body "type" = Some type ->
  truthy chatId && truthy messageId && truthy type = false ->
  VoteRoute.PATCH env request w =
  (error_response "bad_request:api"
     (Some "Parameters chatId, messageId, and type are required."), w).
Proof.
  intros Hbody Hc Hm Ht Hfalsy.
  unfold VoteRoute.PATCH, VoteRoute.destructure. unfold_m.
  rewrite Hbody, Hc, Hm, Ht.
  destruct (truthy chatId), (truthy messageId), (truthy type);
    try discriminate; reflexivity.
Qed.

(** The completion hook returns normally on every input: whatever the
    environment does, [onFinish] neither throws nor returns early. *)
Lemma onFinish_returns (session : option Session) (id : string)
    (message : UIMessage) (finishedAt : Z) (rs : list ResponseMessage)
    (w : World Db) :
  (ChatRoute.onFinish env session id message finishedAt rs w).1 = Value tt.
Proof.
  unfold ChatRoute.onFinish. unfold_m.
  repeat exec_step; try reflexivity.
  all: match goal with u : unit |- _ => destruct u; reflexivity end.
Qed.

(** C6.  When the write of the finished assistant message fails, the
    completion hook logs the error and returns normally: the failed write
    and the [console.error] are the only events, the error is not
    propagated, and the generation's stream ends with the terminator. *)
Theorem persistence_failure_is_logged_and_swallowed
    (session : option Session) (u : User) (id : string) (message : UIMessage)
    (finishedAt : Z) (rs : list ResponseMessage) (chunks : list Chunk)
    (w : World Db) (assistantId : string) (assistantMessage : UIMessage)
    (saveError : Exn) (d : Db) :
  session_user session = Some u ->
  user_id u <> "" ->
  getTrailingMessageId env
    (filter (fun msg => String.eqb (rm_role msg) "assistant" = true) rs)
    = Some assistantId ->
  assistantId <> "" ->
  appendResponseMessages env message rs = inr assistantMessage ->
  let row :=
    {| dbm_id := assistantId; dbm_chatId := id;
       dbm_role := msg_role assistantMessage;
       dbm_parts := msg_parts assistantMessage;
       dbm_attachments :=
         default [] (msg_experimental_attachments assistantMessage);
       dbm_createdAt := finishedAt |} in
  saveMessages env [row] (db w) = (inl saveError, d) ->
  let hook := ChatRoute.onFinish env session id message finishedAt rs in
  let w' :=
    {| db := d; globalStreamContext := globalStreamContext w;
       trace := (trace w ++ [call_saveMessages [row]]) ++
                [console_error "Failed to save assistant message:"
                   (Some saveError)] |} in
  hook w = (Value tt, w') /\
  generate chunks hook w = (Value (chunks ++ [finish_part]), w').
Proof.
  intros Hu Huid Hid Hne Hmsg row Hsave hook w'.
  assert (hook w = (Value tt, w')) as Hhook.
  { subst hook w'. unfold ChatRoute.onFinish. rewrite Hu.
    rewrite (eqb_empty_false _ Huid). cbn [negb].
    rewrite Hid. unfold_m. rewrite (eqb_empty_false _ Hne), Hmsg.
    cbn [db trace globalStreamContext]. fold row. rewrite Hsave. reflexivity. }
  split; [exact Hhook|].
  unfold generate, bind, ret. rewrite Hhook. reflexivity.
Qed.

End Guards.

(** ** Fan-out through the channel *)

Module ChannelFacts.
Import Channel.

Lemma step_buffer (s s' : State) (a : Action) :
  step s a = Some s' -> buffer s' = buffer s ++ published [a].
Proof.
  destruct a as [c|r|r|]; simpl; intros H.
  - destruct (closed s); inversion H; reflexivity.
  - destruct (reclaimed s); [discriminate|].
    destruct (readers s !! r); inversion H. simpl. now rewrite app_nil_r.
  - destruct (readers s !! r) as [rd|]; [|discriminate].
    destruct (inbox rd); inversion H. simpl. now rewrite app_nil_r.
  - destruct (closed s); inversion H. simpl. now rewrite app_nil_r.
Qed.

Lemma step_complete (s s' : State) (a : Action) :
  step s a = Some s' -> complete s -> complete s'.
Proof.
  intros Hstep Hs r rd.
  destruct a as [c|r0|r0|]; simpl in Hstep.
  - destruct (closed s); inversion Hstep; subst; clear Hstep. simpl.
    rewrite lookup_fmap. destruct (readers s !! r) as [rd0|] eqn:Hr; [|discriminate].
    intros [= <-]. simpl. rewrite app_assoc. f_equal. now apply (Hs r).
  - destruct (reclaimed s); [discriminate|].
    destruct (readers s !! r0) eqn:Hr0; inversion Hstep; subst; clear Hstep. simpl.
    destruct (decide (r0 = r)) as [->|Hne].
    + rewrite lookup_insert_eq. intros [= <-]. reflexivity.
    + rewrite lookup_insert_ne by assumption. apply Hs.
  - destruct (readers s !! r0) as [rd0|] eqn:Hr0; [|discriminate].
    destruct (inbox rd0) as [|c rest] eqn:Hin; inversion Hstep; subst; clear Hstep.
    simpl. destruct (decide (r0 = r)) as [->|Hne].
    + rewrite lookup_insert_eq. intros [= <-]. simpl.
      rewrite <- app_assoc. simpl. rewrite <- Hin. now apply (Hs r).
    + rewrite lookup_insert_ne by assumption. apply Hs.
  - destruct (closed s); inversion Hstep; subst; clear Hstep. simpl. apply Hs.
Qed.

Lemma published_app (xs ys : list Action) :
  published (xs ++ ys) = published xs ++ published ys.
Proof.
  induction xs as [|a xs IH]; [reflexivity|].
  destruct a; simpl; rewrite IH; reflexivity.
Qed.

Lemma run_complete (acts : list Action) (s s' : State) :
  run s acts = Some s' -> complete s ->
  complete s' /\ buffer s' = buffer s ++ published acts.
Proof.
  revert s. induction acts as [|a acts IH]; intros s Hrun Hs; cbn [run] in Hrun.
  - inversion Hrun; subst. simpl. now rewrite app_nil_r.
  - destruct (step s a) as [s1|] eqn:Hstep; [|discriminate].
    destruct (IH s1 Hrun (step_complete _ _ _ Hstep Hs)) as [Hc Hb].
    split; [assumption|].
    rewrite Hb, (step_buffer _ _ _ Hstep).
    change (a :: acts) with ([a] ++ acts).
    now rewrite published_app, app_assoc.
Qed.

(** A reader can always take what it has been handed: after as many
    receives as its inbox is long, it has taken all of it. *)
Lemma drain (s : State) (r : nat) (rd : Reader) :
  readers s !! r = Some rd ->
  exists s',
    run s (replicate (length (inbox rd)) (Receive r)) = Some s' /\
    buffer s' = buffer s /\ closed s' = closed s /\
    readers s' !! r = Some {| inbox := []; received := received rd ++ inbox rd |}.
Proof.
  destruct rd as [box got]. revert s got.
  induction box as [|c box IH]; intros s got Hr; simpl.
  - exists s. rewrite app_nil_r. auto.
  - rewrite Hr. simpl.
    destruct (IH {| buffer := buffer s; closed := closed s;
                    reclaimed := reclaimed s;
                    readers :=
                      <[r := {| inbox := box; received := got ++ [c] |}]>
                        (readers s) |}
                (got ++ [c])) as (s' & Hrun & Hb & Hc & Hr').
    { simpl. apply lookup_insert_eq. }
    exists s'. simpl in *. rewrite <- app_assoc in Hr'. auto.
Qed.

(** C2.  Along every schedule of publishes, attaches and receives, every
    reader, whenever it attached, has at each moment taken a prefix of the
    published sequence and has the rest of it waiting in order; once its
    stream has terminated it has taken exactly the published sequence; and
    it can always get there by taking what is waiting.  This holds for each
    reader separately, however many are attached. *)
Theorem reader_receives_published
    (acts : list Action) (s : State) (r : nat) (rd : Reader) :
  run init acts = Some s ->
  readers s !! r = Some rd ->
  received rd ++ inbox rd = published acts /\
  (terminated s rd -> received rd = published acts) /\
  exists s',
    run init (acts ++ replicate (length (inbox rd)) (Receive r)) = Some s' /\
    readers s' !! r = Some {| inbox := []; received := published acts |}.
Proof.
  intros Hrun Hr.
  assert (complete init) as Hinit
    by (intros ? ? H; simpl in H; rewrite lookup_empty in H; discriminate).
  destruct (run_complete _ _ _ Hrun Hinit) as [Hc Hb]. simpl in Hb.
  pose proof (Hc r rd Hr) as Hrd. rewrite Hb in Hrd.
  split; [assumption|]. split.
  - intros [_ Hbox]. rewrite Hbox, app_nil_r in Hrd. assumption.
  - destruct (drain s r rd Hr) as (s' & Hdrain & _ & _ & Hr').
    exists s'. split; [|now rewrite <- Hrd].
    clear - Hrun Hdrain. revert Hrun. generalize init.
    induction acts as [|a acts IH]; simpl; intros s0 Hrun.
    + inversion Hrun; subst. assumption.
    + destruct (step s0 a); [|discriminate]. now apply IH.
Qed.

End ChannelFacts.

(** ** The properties at work *)

Import Scenario.

(** Without [REDIS_URL] every access tries again and says so on the console. *)
Example getStreamContext_logs_each_attempt :
  trace (ChatRoute.getStreamContext offline_env
           (ChatRoute.getStreamContext offline_env (boot empty_db)).2).2 =
  [call_createResumableStreamContext;
   console_log " > Resumable streams are disabled due to missing REDIS_URL";
   call_createResumableStreamContext;
   console_log " > Resumable streams are disabled due to missing REDIS_URL"].
Proof. reflexivity. Qed.

(** C1 (counterexample).  The last assistant message was created 15.5
    seconds before the resume request, which is more than 15 seconds, and
    the stream has concluded: the answer is not the empty stream but the
    replay of that message. *)
Lemma GET_replays_message_15500ms_old :
  let w := warm Mem.concluded (db_with [question; reply 84500] [("s1", "c1")]) in
  let request := resume "c1" alice in
  resumableStream Mem.concluded "s1" [] = inr None /\
  now request - dbm_createdAt (reply 84500) = 15500 /\
  (ChatRoute.GET concluded_env request w).1 =
  response
    (body_stream [data_part "append-message" "{id:m2,chatId:c1,role:assistant}"])
    200.
Proof. vm_compute. repeat split. Qed.

(** Scenario: the last assistant message is 20 seconds old and the stream
    has concluded; the resume yields the empty stream. *)
Example GET_empty_after_20s :
  (ChatRoute.GET concluded_env (resume "c1" alice)
     (warm Mem.concluded (db_with [question; reply 80000] [("s1", "c1")]))).1 =
  response (body_stream []) 200.
Proof. reflexivity. Qed.

(** Scenario: the last message is the user's and the stream has concluded;
    the resume yields the empty stream, not the user's message. *)
Example GET_empty_when_last_is_user :
  (ChatRoute.GET concluded_env (resume "c1" alice)
     (warm Mem.concluded (db_with [question] [("s1", "c1")]))).1 =
  response (body_stream []) 200.
Proof. reflexivity. Qed.

Lemma GET_concluded_stream_fallback_witness :
  let w := warm Mem.concluded (db_with [question; reply 90000] [("s1", "c1")]) in
  let request := resume "c1" alice in
  resumes concluded_env request w w Mem.concluded "c1" alice chat1 /\
  (ChatRoute.GET concluded_env request w).1 =
  response
    (body_stream [data_part "append-message" "{id:m2,chatId:c1,role:assistant}"])
    200.
Proof.
  intros w request.
  assert (resumes concluded_env request w w Mem.concluded "c1" alice chat1) as Hres
    by (repeat split; first [reflexivity | discriminate]).
  split; [exact Hres|].
  destruct (GET_concluded_stream_fallback concluded_env request w w
              Mem.concluded "c1" alice chat1 ["s1"] "s1" [question; reply 90000]
              Hres (or_intror eq_refl) eq_refl eq_refl
              ltac:(discriminate) eq_refl eq_refl)
    as (s & Hget & Hs).
  vm_compute in Hs. rewrite Hget, Hs. reflexivity.
Defined.


Lemma GET_without_stream_id_not_found_witness :
  let w := boot (db_with [question] []) in
  let w1 :=
    {| db := db_with [question] []; globalStreamContext := Some Mem.live;
       trace := [call_createResumableStreamContext] |} in
  let request := resume "c1" alice in
  resumes live_env request w w1 Mem.live "c1" alice chat1 /\
  let '(r, w') := ChatRoute.GET live_env request w in
  r = error_response "not_found:stream" None /\
  db w' = db w /\
  attaches (trace w') = attaches (trace w1) /\
  writes (trace w') = writes (trace w1).
Proof.
  intros w w1 request.
  assert (resumes live_env request w w1 Mem.live "c1" alice chat1) as Hres
    by (repeat split; first [reflexivity | discriminate]).
  split; [exact Hres|].
  exact (GET_without_stream_id_not_found live_env request w w1 Mem.live "c1"
           alice chat1 Hres (or_intror eq_refl) eq_refl).
Defined.

Lemma GET_forbidden_only_when_private_witness :
  let w := warm Mem.live (db_with [question] [("s1", "c1"); ("s9", "c2")]) in
  (ChatRoute.GET live_env (resume "c1" bob) w).1 =
    error_response "forbidden:chat" None /\
  ChatRoute.GET live_env (resume "c2" bob) w =
    ChatRoute.GET live_env
      (resume "c2" {| user_id := "alice"; user_type := "guest" |}) w /\
  (ChatRoute.GET live_env (resume "c2" bob) w).1 =
    response (body_stream [text_delta "Hel"]) 200 /\
  attaches (trace (ChatRoute.GET live_env (resume "c2" bob) w).2) =
    [call_resumableStream "s9"].
Proof.
  intros w. split.
  - assert (resumes live_env (resume "c1" bob) w w Mem.live "c1" bob chat1) as Hres
      by (repeat split; first [reflexivity | discriminate]).
    pose proof (proj1 (GET_forbidden_only_when_private live_env (resume "c1" bob)
                         w w Mem.live "c1" bob chat1 Hres ltac:(discriminate))
                  eq_refl) as H.
    destruct (ChatRoute.GET live_env (resume "c1" bob) w). apply H.
  - assert (resumes live_env (resume "c2" bob) w w Mem.live "c2" bob chat2) as Hres
      by (repeat split; first [reflexivity | discriminate]).
    destruct (proj2 (GET_forbidden_only_when_private live_env (resume "c2" bob)
                       w w Mem.live "c2" bob chat2 Hres ltac:(discriminate))
                ltac:(discriminate)) as [Hsame Hgoes].
    split; [exact Hsame|].
    destruct (ChatRoute.GET live_env (resume "c2" bob) w) as [r w'].
    destruct Hgoes as [_ Hgoes]. vm_compute in Hgoes.
    destruct Hgoes as [Hatt Hr]. split; assumption.
Defined.

(** On a public conversation of another user, the live stream is handed to
    the requester. *)
Example GET_public_chat_attaches :
  (ChatRoute.GET live_env (resume "c2" bob)
     (warm Mem.live (db_with [question] [("s1", "c1"); ("s9", "c2")]))).1 =
  response (body_stream [text_delta "Hel"]) 200.
Proof. reflexivity. Qed.


Lemma POST_rate_limit_before_writes_witness :
  let w := boot busy_db in
  let request := start "c3" bob in
  getMessageCountByUserId offline_env "bob" 24 busy_db = inr 21 /\
  entitlementsByUserType offline_env "guest" = Some {| maxMessagesPerDay := 20 |} /\
  let '(r, w') := ChatRoute.POST offline_env request w in
  r = error_response "rate_limit:chat" None /\
  db w' = db w /\
  trace w' = trace w ++ [call_getMessageCountByUserId "bob" 24] /\
  writes (trace w') = writes (trace w).
Proof.
  intros w request.
  split; [reflexivity|]. split; [reflexivity|].
  eapply (POST_rate_limit_before_writes offline_env request w (start_body "c3")
            _ bob 21 {| maxMessagesPerDay := 20 |});
    first [reflexivity | lia].
Defined.

Lemma non_owner_is_forbidden_before_writes_witness :
  let w := boot (db_with [question; reply 90000] []) in
  let request := cast "up" bob in
  (let '(r, w') := ChatRoute.DELETE offline_env request w in
   r = error_response "forbidden:chat" None /\
   db w' = db w /\ writes (trace w') = writes (trace w)) /\
  (let '(r, w') := VoteRoute.PATCH offline_env request w in
   r = error_response "forbidden:vote" None /\
   db w' = db w /\ writes (trace w') = writes (trace w)).
Proof.
  intros w request.
  destruct (non_owner_is_forbidden_before_writes offline_env request w bob chat1
              eq_refl ltac:(discriminate)) as [Hdelete Hpatch].
  split.
  - apply (Hdelete "c1"); first [reflexivity | discriminate].
  - apply (Hpatch (vote_body "up") (JString "c1") (JString "m2") (JString "up"));
      reflexivity.
Defined.

(** The owner's vote and the owner's delete go through. *)
Example owner_votes_and_deletes :
  let w := boot (db_with [question; reply 90000] []) in
  (VoteRoute.PATCH offline_env (cast "up" alice) w).1 =
    response (body_text "Message voted successfully") 200 /\
  votes (db (VoteRoute.PATCH offline_env (cast "up" alice) w).2) =
    [{| vote_chatId := "c1"; vote_messageId := "m2"; vote_isUpvoted := true |}] /\
  (ChatRoute.DELETE offline_env (cast "up" alice) w).1 =
    response (body_chat (Some chat1)) 200 /\
  chats (db (ChatRoute.DELETE offline_env (cast "up" alice) w).2) = [chat2].
Proof. vm_compute. repeat split. Qed.

(** C9 (failing input).  The body names a direction that is neither [up]
    nor [down]; the schema rejects it, but PATCH does not consult the
    schema: it calls [voteMessage] with that direction, a vote is stored,
    and the answer is 200. *)
Lemma PATCH_accepts_unknown_direction :
  let w := boot (db_with [question; reply 90000] []) in
  let request := cast "sideways" alice in
  let '(r, w') := VoteRoute.PATCH offline_env request w in
  patchRequestBodySchema (vote_body "sideways") = None /\
  r = response (body_text "Message voted successfully") 200 /\
  writes (trace w') =
    [call_voteMessage (JString "c1") (JString "m2") (JString "sideways")] /\
  votes (db w') =
    [{| vote_chatId := "c1"; vote_messageId := "m2"; vote_isUpvoted := false |}].
Proof. vm_compute. repeat split. Qed.

(** A body that is not JSON at all is answered with
    [internal_server_error:api]. *)
Example PATCH_unparsable_body :
  (VoteRoute.PATCH offline_env (request_at [] None (as_user alice))
     (boot empty_db)).1 =
  error_response "internal_server_error:api"
    (Some "An unexpected error occurred.").
Proof. reflexivity. Qed.

Lemma persistence_failure_is_logged_and_swallowed_witness :
  let w := boot (db_with [question] [("s1", "c1")]) in
  let hook :=
    ChatRoute.onFinish readonly_env (as_user alice) "c1" asked_message 95000
      finished in
  saveMessages readonly_env [reply 95000] (db w) =
    (inl (ChatSDKError "bad_request:database" (Some "Failed to save messages")),
     db w) /\
  (hook w).1 = Value tt /\
  messages (db (hook w).2) = [question] /\
  (generate [text_delta "Hel"; text_delta "lo"] hook w).1 =
    Value [text_delta "Hel"; text_delta "lo"; finish_part].
Proof.
  intros w hook. split; [reflexivity|].
  destruct (persistence_failure_is_logged_and_swallowed readonly_env
              (as_user alice) alice "c1" asked_message 95000 finished
              [text_delta "Hel"; text_delta "lo"] w "m4"
              {| msg_id := "m4"; msg_role := "assistant";
                 msg_content := Some "Hello"; msg_parts := [JString "Hello"];
                 msg_experimental_attachments := None |}
              (ChatSDKError "bad_request:database" (Some "Failed to save messages"))
              (db w)
              eq_refl ltac:(discriminate) eq_refl ltac:(discriminate) eq_refl
              eq_refl)
    as [Hhook Hgen].
  fold hook in Hhook, Hgen. rewrite Hhook, Hgen. repeat split.
Defined.

Lemma reader_receives_published_witness :
  exists s rd,
    Channel.run Channel.init schedule = Some s /\
    Channel.readers s !! 2%nat = Some rd /\
    Channel.terminated s rd /\
    Channel.received rd = [text_delta "Hel"; text_delta "lo"; finish_part].
Proof.
  destruct (Channel.run Channel.init schedule) as [s|] eqn:Hrun;
    [|vm_compute in Hrun; discriminate].
  destruct (Channel.readers s !! 2%nat) as [rd|] eqn:Hrd.
  2:{ vm_compute in Hrun. inversion Hrun; subst. vm_compute in Hrd. discriminate. }
  assert (Channel.terminated s rd) as Hterm.
  { vm_compute in Hrun. inversion Hrun; subst. vm_compute in Hrd.
    inversion Hrd; subst. split; reflexivity. }
  exists s, rd.
  split; [first [reflexivity | assumption]|].
  split; [first [reflexivity | assumption]|].
  split; [exact Hterm|].
  rewrite (proj1 (proj2 (ChannelFacts.reader_receives_published schedule s 2 rd
                           Hrun Hrd)) Hterm).
  reflexivity.
Defined.

(** Scenario: a reader that attaches after the terminator was buffered
    receives both chunks and the terminator, once each. *)
Example late_reader_catches_up :
  match Channel.run Channel.init
          (schedule ++ replicate 3 (Channel.Receive 3)) with
  | Some s => Channel.received <$> Channel.readers s !! 3%nat
  | None => None
  end = Some [text_delta "Hel"; text_delta "lo"; finish_part].
Proof. vm_compute. reflexivity. Qed.

(** * Further properties of the handlers *)

Lemma effects_snoc (t : list Event) (e : Event) :
  effects (t ++ [e]) = effects t ++ (if is_write e || is_attach e then [e] else []).
Proof.
  unfold effects. rewrite List.filter_app. simpl.
  destruct (is_write e || is_attach e); reflexivity.
Qed.

Ltac effects_simpl :=
  rewrite ?attaches_snoc, ?writes_snoc, ?effects_snoc, ?constructions_snoc;
  cbn [is_attach is_write is_construction orb];
  rewrite ?app_nil_r, ?Nat.add_0_r.

Ltac unfold_handlers :=
  unfold ChatRoute.POST, ChatRoute.GET, ChatRoute.DELETE, VoteRoute.GET,
    VoteRoute.PATCH, VoteRoute.destructure, ChatRoute.getStreamContext;
  unfold_m.

Ltac norm_hyps :=
  repeat match goal with
  | H : (_ >? _) = false |- _ => rewrite Z.gtb_ltb, Z.ltb_ge in H
  | H : (_ >? _) = true |- _ => rewrite Z.gtb_ltb, Z.ltb_lt in H
  | H : negb (String.eqb _ _) = false |- _ =>
      apply negb_false_iff, String.eqb_eq in H
  | H : negb (String.eqb _ _) = true |- _ =>
      apply negb_true_iff, String.eqb_neq in H
  end.

Ltac split_params :=
  repeat match goal with
  | H : context [truthy_param ?p] |- _ =>
      lazymatch p with
      | Some _ => fail
      | None => fail
      | _ =>
          destruct p eqn:?;
          cbn [truthy_param negb default from_option Datatypes.id] in *
      end
  end;
  try discriminate.

Section Boundary.
Context {Db : Type} (env : Env Db).

(** Every handler resolves to a response: whatever the environment throws
    is caught and answered, never passed on to the caller. *)
Theorem handlers_never_reject (request : Request) (w : World Db) :
  is_unhandled (ChatRoute.POST env request w).1 = false /\
  is_unhandled (ChatRoute.GET env request w).1 = false /\
  is_unhandled (ChatRoute.DELETE env request w).1 = false /\
  is_unhandled (VoteRoute.GET env request w).1 = false /\
  is_unhandled (VoteRoute.PATCH env request w).1 = false.
Proof.
  repeat split; unfold_handlers; repeat exec_step; reflexivity.
Qed.

(** The two read handlers, resume and list-votes, never write: the database
    is the same afterwards and no write was called. *)
Theorem read_handlers_never_write (request : Request) (w : World Db) :
  (let '(_, w') := ChatRoute.GET env request w in
   db w' = db w /\ writes (trace w') = writes (trace w)) /\
  (let '(_, w') := VoteRoute.GET env request w in
   db w' = db w /\ writes (trace w') = writes (trace w)).
Proof.
  split; unfold_handlers; repeat exec_step;
    repeat effects_simpl; split; reflexivity.
Qed.

End Boundary.

Section Handle.
Context {Db : Type} (env : Env Db).

(** The stream handle is only ever set, never cleared or replaced: DELETE
    and the vote handlers do not touch it at all, and POST and resume leave
    a held handle in place and construct nothing, while without a handle
    they try one construction at most. *)
Theorem handle_is_stable (request : Request) (w : World Db) :
  (let '(_, w') := ChatRoute.DELETE env request w in
   globalStreamContext w' = globalStreamContext w /\
   constructions (trace w') = constructions (trace w)) /\
  (let '(_, w') := VoteRoute.GET env request w in
   globalStreamContext w' = globalStreamContext w /\
   constructions (trace w') = constructions (trace w)) /\
  (let '(_, w') := VoteRoute.PATCH env request w in
   globalStreamContext w' = globalStreamContext w /\
   constructions (trace w') = constructions (trace w)) /\
  (let '(_, w') := ChatRoute.GET env request w in
   match globalStreamContext w with
   | Some c =>
       globalStreamContext w' = Some c /\
       constructions (trace w') = constructions (trace w)
   | None => (constructions (trace w') <= constructions (trace w) + 1)%nat
   end) /\
  (let '(_, w') := ChatRoute.POST env request w in
   match globalStreamContext w with
   | Some c =>
       globalStreamContext w' = Some c /\
       constructions (trace w') = constructions (trace w)
   | None => (constructions (trace w') <= constructions (trace w) + 1)%nat
   end).
Proof.
  repeat split; unfold_handlers; repeat exec_step;
    repeat effects_simpl; try discriminate;
    first [ split; congruence | lia ].
Qed.

End Handle.

Section Start.
Context {Db : Type} (env : Env Db).

(** POST writes nothing unless the request is admitted: the body passed
    the schema, a user is signed in, that user's 24-hour message count is
    within the tier's daily maximum, and the chat is either new or owned by
    that user. *)
Theorem POST_writes_only_when_admitted (request : Request) (w : World Db) :
  let '(_, w') := ChatRoute.POST env request w in
  (db w' = db w /\ writes (trace w') = writes (trace w)) \/
  exists j body u n tier,
    json request = Some j /\
    postRequestBodySchema j = Some body /\
    session_user (auth request) = Some u /\
    getMessageCountByUserId env (user_id u) 24 (db w) = inr n /\
    entitlementsByUserType env (user_type u) = Some tier /\
    n <= maxMessagesPerDay tier /\
    (getChatById env (JString (id body)) (db w) = inr None \/
     exists chat,
       getChatById env (JString (id body)) (db w) = inr (Some chat) /\
       chat_userId chat = user_id u).
Proof.
  unfold_handlers. repeat exec_step.
  all: repeat effects_simpl.
  all: try (left; split; reflexivity).
  all: norm_hyps; right; do 5 eexists;
    repeat (split; [first [reflexivity | eassumption]|]);
    first [left; eassumption | right; eexists; split; eassumption].
Qed.

End Start.

Ltac tidy_constructions :=
  repeat match goal with
  | H : context [constructions (_ ++ [_])] |- _ =>
      rewrite constructions_snoc in H; cbn [is_construction] in H;
      rewrite Nat.add_0_r in H
  end.

Ltac merge_handles :=
  repeat match goal with
  | H1 : createResumableStreamContext ?e ?n = inr _,
    H2 : createResumableStreamContext ?e ?n = inr _ |- _ =>
      rewrite H1 in H2; injection H2 as <-
  end.

Ltac use_queries :=
  repeat match goal with
  | H : getChatById _ _ _ = _ |- _ => rewrite H
  | H : generateTitleFromUserMessage _ _ = _ |- _ => rewrite H
  | H : saveChat _ _ _ _ _ _ = _ |- _ => rewrite H
  | H : createResumableStreamContext _ _ = _ |- _ => rewrite H
  | H : globalStreamContext _ = _ |- _ => rewrite H
  | H : resumableStream _ _ _ = _ |- _ => rewrite H
  end.

Section PublishOrder.
Context {Db : Type} (env : Env Db).

(** Whenever POST answers with a stream, its writes and its call to the
    backend are these, in this order: [saveChat] exactly when the chat
    lookup found no chat (with the generated title), then [saveMessages]
    of the one user row, then [createStreamId] of the freshly generated
    stream id, then [resumableStream] on that stream id exactly when
    [getStreamContext] yields a handle. *)
Theorem POST_streams_after_minting (request : Request) (w : World Db) :
  let '(r, w') := ChatRoute.POST env request w in
  match r with
  | response (body_stream _) _ =>
      exists j body u,
        json request = Some j /\
        postRequestBodySchema j = Some body /\
        session_user (auth request) = Some u /\
        effects (trace w') =
          effects (trace w) ++
          match fresh_title env body (db w) with
          | Some title =>
              [call_saveChat (id body) (user_id u) title
                 (selectedVisibilityType body)]
          | None => []
          end ++
          [call_saveMessages [user_row body request];
           call_createStreamId (uuid request) (id body)] ++
          match handle_after env w with
          | Some _ => [call_resumableStream (uuid request)]
          | None => []
          end
  | _ => True
  end.
Proof.
  unfold_handlers. unfold handle_after. repeat exec_step.
  all: try exact I.
  all: tidy_constructions; try congruence.
  all: repeat effects_simpl.
  all: rewrite <- ?app_assoc; cbn [app].
  all: do 3 eexists.
  all: repeat (split; [first [reflexivity | eassumption]|]).
  all: unfold fresh_title; use_queries; reflexivity.
Qed.

End PublishOrder.

Section Publish.
Context {Db : Type} (env : Env Db).

(** The stream POST answers with, always with status 200, is determined by
    the handle [getStreamContext] yields.  Without a handle it is the
    producer POST built from the request and the messages the chat held
    (read after the chat was made sure to exist).  With a handle it is
    what [resumableStream] of that handle returned when handed that
    producer under the minted stream id, and the producer itself when it
    returned [null].  POST answers with no other kind of body. *)
Theorem POST_stream_is_producer_or_published (request : Request) (w : World Db) :
  let '(r, _) := ChatRoute.POST env request w in
  match r with
  | response (body_stream s) status =>
      status = 200 /\
      exists j body u previous,
        json request = Some j /\
        postRequestBodySchema j = Some body /\
        session_user (auth request) = Some u /\
        getMessagesByChatId env (id body) (chat_ensured env body u (db w)) =
          inr previous /\
        s = match handle_after env w with
            | Some ctx =>
                match resumableStream ctx (uuid request)
                        (producer_for env body request previous) with
                | inr (Some published) => published
                | _ => producer_for env body request previous
                end
            | None => producer_for env body request previous
            end
  | response _ _ => False
  | _ => True
  end.
Proof.
  unfold_handlers. unfold handle_after. repeat exec_step.
  all: try exact I.
  all: tidy_constructions; try congruence; merge_handles.
  all: split; [reflexivity|]; do 4 eexists.
  all: repeat (split; [first [reflexivity | eassumption]|]).
  all: split;
       [ unfold chat_ensured, fresh_title; use_queries; cbn [snd];
         eassumption
       | unfold producer_for; use_queries; reflexivity ].
Qed.

End Publish.

Section StartGuards.
Context {Db : Type} (env : Env Db).

(** A start-generation request whose body is not JSON, or is JSON that the
    schema rejects, is answered with [bad_request:api] "Invalid request
    body."; the error is logged and nothing else happens. *)
Theorem POST_malformed_body_bad_request (request : Request) (w : World Db) :
  json request ≫= postRequestBodySchema = None ->
  exists error,
    ChatRoute.POST env request w =
    (error_response "bad_request:api" (Some "Invalid request body."),
     {| db := db w; globalStreamContext := globalStreamContext w;
        trace := trace w ++
                 [console_error "Error parsing request body:" (Some error)] |}).
Proof.
  intros H. unfold ChatRoute.POST. unfold_m.
  destruct (json request) as [j|]; simpl in H.
  - rewrite H. eexists. reflexivity.
  - eexists. reflexivity.
Qed.

(** A well-formed start-generation request without a signed-in user is
    answered with [unauthorized:chat] before any query: the process is left
    exactly as it was. *)
Theorem POST_signed_out_unauthorized
    (request : Request) (w : World Db) (j : JsValue) (body : PostRequestBody) :
  json request = Some j ->
  postRequestBodySchema j = Some body ->
  session_user (auth request) = None ->
  ChatRoute.POST env request w = (error_response "unauthorized:chat" None, w).
Proof.
  intros Hj Hbody Hu. unfold ChatRoute.POST. unfold_m.
  rewrite Hj, Hbody. cbn [db trace globalStreamContext]. rewrite Hu.
  destruct w; reflexivity.
Qed.

(** A start-generation request on an existing chat of another user is
    answered with [forbidden:chat]; only the count query and the chat
    lookup were made, so nothing was written. *)
Theorem POST_non_owner_forbidden
    (request : Request) (w : World Db) (j : JsValue) (body : PostRequestBody)
    (u : User) (n : Z) (tier : Entitlements) (chat : Chat) :
  json request = Some j ->
  postRequestBodySchema j = Some body ->
  session_user (auth request) = Some u ->
  getMessageCountByUserId env (user_id u) 24 (db w) = inr n ->
  entitlementsByUserType env (user_type u) = Some tier ->
  n <= maxMessagesPerDay tier ->
  getChatById env (JString (id body)) (db w) = inr (Some chat) ->
  chat_userId chat <> user_id u ->
  ChatRoute.POST env request w =
  (error_response "forbidden:chat" None,
   {| db := db w; globalStreamContext := globalStreamContext w;
      trace := (trace w ++ [call_getMessageCountByUserId (user_id u) 24]) ++
               [call_getChatById (JString (id body))] |}).
Proof.
  intros Hj Hbody Hu Hn Htier Hle Hchat Hother.
  unfold ChatRoute.POST. unfold_m.
  rewrite Hj, Hbody. cbn [db trace globalStreamContext]. rewrite Hu.
  cbn [db trace globalStreamContext]. rewrite Hn, Htier.
  assert ((n >? maxMessagesPerDay tier) = false) as ->
    by (rewrite Z.gtb_ltb; apply Z.ltb_ge; assumption).
  cbn [db trace globalStreamContext]. rewrite Hchat.
  apply String.eqb_neq in Hother. rewrite Hother. reflexivity.
Qed.

End StartGuards.

Section ResumeMore.
Context {Db : Type} (env : Env Db).

(** A resume request attaches at most once, and only to the last of the
    stream ids listed for the conversation it names. *)
Theorem GET_attaches_latest_stream_id (request : Request) (w : World Db) :
  let '(_, w') := ChatRoute.GET env request w in
  attaches (trace w') = attaches (trace w) \/
  exists chatId streamIds recentStreamId,
    searchParams_get (searchParams request) "chatId" = Some chatId /\
    getStreamIdsByChatId env chatId (db w) = inr streamIds /\
    last streamIds = Some recentStreamId /\
    attaches (trace w') =
    attaches (trace w) ++ [call_resumableStream recentStreamId].
Proof.
  unfold_handlers. repeat exec_step.
  all: repeat effects_simpl.
  all: try (left; reflexivity).
  all: split_params.
  all: right; do 3 eexists;
       repeat (split; [first [reflexivity | eassumption]|]); reflexivity.
Qed.

(** With the backend at hand, a resume request without a [chatId] is
    answered with [bad_request:api], one without a signed-in user with
    [unauthorized:chat], and one on an unknown conversation with
    [not_found:chat]; in that order, and without any further call. *)
Theorem GET_guards
    (request : Request) (w w1 : World Db) (ctx : ResumableStreamContext) :
  ChatRoute.getStreamContext env w = (Value (Some ctx), w1) ->
  (truthy_param (searchParams_get (searchParams request) "chatId") = false ->
   ChatRoute.GET env request w =
   (error_response "bad_request:api" (Some "Parameter chatId is required."),
    w1)) /\
  (forall chatId,
     searchParams_get (searchParams request) "chatId" = Some chatId ->
     chatId <> "" ->
     (session_user (auth request) = None ->
      ChatRoute.GET env request w =
      (error_response "unauthorized:chat" None, w1)) /\
     (forall u,
        session_user (auth request) = Some u ->
        getChatById env (JString chatId) (db w) = inr None ->
        ChatRoute.GET env request w =
        (error_response "not_found:chat" None,
         {| db := db w1; globalStreamContext := globalStreamContext w1;
            trace := trace w1 ++ [call_getChatById (JString chatId)] |}))).
Proof.
  intros Hctx.
  pose proof (getStreamContext_db env w w1 _ Hctx) as Hdb.
  split; [|intros chatId Hparam Hne; split; [|intros u]].
  - intros H. unfold ChatRoute.GET, respond, try_catch, bind. rewrite Hctx, H.
    reflexivity.
  - intros Hu. unfold ChatRoute.GET, respond, try_catch, bind.
    rewrite Hctx, Hparam. cbn [truthy_param negb].
    rewrite (eqb_empty_false _ Hne). cbn [negb]. rewrite Hu. reflexivity.
  - intros Hu Hchat. unfold ChatRoute.GET, respond, try_catch, bind.
    rewrite Hctx, Hparam.
    cbn [truthy_param negb default from_option Datatypes.id].
    rewrite (eqb_empty_false _ Hne). cbn [negb]. rewrite Hu.
    unfold read, bind, emit, lift, ret. cbn [db trace globalStreamContext].
    rewrite Hdb, Hchat. reflexivity.
Qed.

(** How resume answers a failing query.  Whatever the chat lookup throws,
    a [ChatSDKError] included, is logged and answered with
    [internal_server_error:api] "Failed to retrieve chat."; a
    [ChatSDKError] thrown by the stream-id listing is logged and answered
    with its own code and cause, and any other error it throws with
    [internal_server_error:api] "An unexpected error occurred.". *)
Theorem GET_failing_queries
    (request : Request) (w w1 : World Db) (ctx : ResumableStreamContext)
    (chatId : string) (u : User) :
  ChatRoute.getStreamContext env w = (Value (Some ctx), w1) ->
  searchParams_get (searchParams request) "chatId" = Some chatId ->
  chatId <> "" ->
  session_user (auth request) = Some u ->
  (forall error,
     getChatById env (JString chatId) (db w) = inl error ->
     ChatRoute.GET env request w =
     (error_response "internal_server_error:api"
        (Some "Failed to retrieve chat."),
      {| db := db w1; globalStreamContext := globalStreamContext w1;
         trace := (trace w1 ++ [call_getChatById (JString chatId)]) ++
                  [console_error "Error fetching chat by ID in GET /api/chat:"
                     (Some error)] |})) /\
  (forall chat error,
     getChatById env (JString chatId) (db w) = inr (Some chat) ->
     may_read u chat ->
     getStreamIdsByChatId env chatId (db w) = inl error ->
     (ChatRoute.GET env request w).1 =
     match error with
     | ChatSDKError code cause => error_response code cause
     | Error _ =>
         error_response "internal_server_error:api"
           (Some "An unexpected error occurred.")
     end /\
     last (trace (ChatRoute.GET env request w).2) =
     Some (console_error "Unhandled error in GET /api/chat:" (Some error))).
Proof.
  intros Hctx Hparam Hne Hu.
  pose proof (getStreamContext_db env w w1 _ Hctx) as Hdb. split.
  - intros error Hchat. unfold ChatRoute.GET, respond, try_catch, bind.
    rewrite Hctx, Hparam.
    cbn [truthy_param negb default from_option Datatypes.id].
    rewrite (eqb_empty_false _ Hne). cbn [negb]. rewrite Hu.
    unfold read, bind, emit, lift, ret, throw, return_.
    cbn [db trace globalStreamContext]. rewrite Hdb, Hchat. reflexivity.
  - intros chat error Hchat Hmay Hids.
    rewrite (GET_after_lookup env request w w1 ctx chatId u chat)
      by (repeat split; assumption).
    rewrite (may_read_check _ _ Hmay).
    unfold respond, try_catch, read, bind, emit, lift, ret, return_, throw.
    cbn [db trace globalStreamContext]. rewrite Hdb, Hids.
    destruct error; cbn [fst snd trace]; rewrite last_snoc; split; reflexivity.
Qed.

(** When the backend still has the latest stream, the resume request is
    answered with that stream and status 200; the chat's messages are not
    read. *)
Theorem GET_live_stream_passes_through
    (request : Request) (w w1 : World Db) (ctx : ResumableStreamContext)
    (chatId : string) (u : User) (chat : Chat)
    (streamIds : list string) (recentStreamId : string) (stream : Stream) :
  resumes env request w w1 ctx chatId u chat ->
  may_read u chat ->
  getStreamIdsByChatId env chatId (db w) = inr streamIds ->
  last streamIds = Some recentStreamId ->
  recentStreamId <> "" ->
  resumableStream ctx recentStreamId [] = inr (Some stream) ->
  ChatRoute.GET env request w =
  (response (body_stream stream) 200,
   {| db := db w1; globalStreamContext := globalStreamContext w1;
      trace := ((trace w1 ++ [call_getChatById (JString chatId)]) ++
                [call_getStreamIdsByChatId chatId]) ++
               [call_resumableStream recentStreamId] |}).
Proof.
  intros Hres Hmay Hids Hlast Hsid Hattach.
  rewrite (GET_after_lookup _ _ _ _ _ _ _ _ Hres).
  destruct Hres as (Hctx & _). apply getStreamContext_db in Hctx.
  rewrite (may_read_check _ _ Hmay).
  unfold respond, try_catch, read, bind, emit, lift, ret, return_.
  cbn [db trace globalStreamContext]. rewrite Hctx, Hids.
  destruct streamIds as [|s0 rest]; [discriminate|].
  cbn [length Nat.eqb]. rewrite Hlast.
  cbn [truthy_param negb default from_option Datatypes.id].
  rewrite (eqb_empty_false _ Hsid). cbn [negb db trace globalStreamContext].
  rewrite Hattach. reflexivity.
Qed.

(** If the latest stream id listed for the conversation is the empty
    string, the resume request is answered with [not_found:stream] "No
    recent stream ID found." and nothing is attached. *)
Theorem GET_empty_latest_stream_id
    (request : Request) (w w1 : World Db) (ctx : ResumableStreamContext)
    (chatId : string) (u : User) (chat : Chat) (streamIds : list string) :
  resumes env request w w1 ctx chatId u chat ->
  may_read u chat ->
  getStreamIdsByChatId env chatId (db w) = inr streamIds ->
  last streamIds = Some "" ->
  let '(r, w') := ChatRoute.GET env request w in
  r = error_response "not_found:stream" (Some "No recent stream ID found.") /\
  attaches (trace w') = attaches (trace w1).
Proof.
  intros Hres Hmay Hids Hlast.
  rewrite (GET_after_lookup _ _ _ _ _ _ _ _ Hres).
  destruct Hres as (Hctx & _). apply getStreamContext_db in Hctx.
  rewrite (may_read_check _ _ Hmay).
  unfold respond, try_catch, read, bind, emit, lift, ret, return_.
  cbn [db trace globalStreamContext]. rewrite Hctx, Hids.
  destruct streamIds as [|s0 rest]; [discriminate|].
  cbn [length Nat.eqb]. rewrite Hlast.
  cbn [truthy_param negb String.eqb trace]. repeat effects_simpl. auto.
Qed.

End ResumeMore.

Section DeleteAndVote.
Context {Db : Type} (env : Env Db).

(** DELETE writes only for the owner: either nothing is written, or a
    signed-in user asked for a chat that exists and is theirs, and the one
    write is [deleteChatById] of that chat. *)
Theorem DELETE_writes_only_for_owner (request : Request) (w : World Db) :
  let '(_, w') := ChatRoute.DELETE env request w in
  (db w' = db w /\ writes (trace w') = writes (trace w)) \/
  exists id u chat,
    searchParams_get (searchParams request) "id" = Some id /\
    session_user (auth request) = Some u /\
    getChatById env (JString id) (db w) = inr (Some chat) /\
    chat_userId chat = user_id u /\
    writes (trace w') = writes (trace w) ++ [call_deleteChatById id].
Proof.
  unfold_handlers. repeat exec_step.
  all: repeat effects_simpl.
  all: try (left; split; reflexivity).
  all: split_params; norm_hyps.
  all: right; do 3 eexists;
       repeat (split; [first [reflexivity | eassumption]|]); reflexivity.
Qed.


(** DELETE without an [id] is answered with [bad_request:api], without a
    signed-in user with [unauthorized:chat], and on an unknown chat with
    [not_found:chat] "Chat not found."; the database is not written. *)
Theorem DELETE_guards (request : Request) (w : World Db) :
  (truthy_param (searchParams_get (searchParams request) "id") = false ->
   ChatRoute.DELETE env request w =
   (error_response "bad_request:api" (Some "Parameter id is required."), w)) /\
  (forall id,
     searchParams_get (searchParams request) "id" = Some id ->
     id <> "" ->
     (session_user (auth request) = None ->
      ChatRoute.DELETE env request w =
      (error_response "unauthorized:chat" None, w)) /\
     (forall u,
        session_user (auth request) = Some u ->
        getChatById env (JString id) (db w) = inr None ->
        ChatRoute.DELETE env request w =
        (error_response "not_found:chat" (Some "Chat not found."),
         {| db := db w; globalStreamContext := globalStreamContext w;
            trace := trace w ++ [call_getChatById (JString id)] |}))).
Proof.
  split; [|intros id Hid Hne; split; [|intros u]].
  - intros H. unfold ChatRoute.DELETE. unfold_m. rewrite H.
    destruct w; reflexivity.
  - intros Hu. unfold ChatRoute.DELETE. unfold_m. rewrite Hid.
    cbn [truthy_param negb]. rewrite (eqb_empty_false _ Hne). cbn [negb].
    rewrite Hu. destruct w; reflexivity.
  - intros Hu Hchat. unfold ChatRoute.DELETE. unfold_m. rewrite Hid.
    cbn [truthy_param negb default from_option Datatypes.id].
    rewrite (eqb_empty_false _ Hne). cbn [negb]. rewrite Hu.
    cbn [db trace globalStreamContext]. rewrite Hchat. reflexivity.
Qed.

(** PATCH writes only for the owner: either nothing is written, or a
    signed-in user sent a body whose [chatId], [messageId] and [type] are
    all truthy for a chat that exists and is theirs, and the one write is
    [voteMessage] with exactly these three values. *)
Theorem PATCH_writes_only_for_owner (request : Request) (w : World Db) :
  let '(_, w') := VoteRoute.PATCH env request w in
  (db w' = db w /\ writes (trace w') = writes (trace w)) \/
  exists body chatId messageId type u chat,
    json request = Some body /\
    get_prop body "chatId" = Some chatId /\
    get_prop body "messageId" = Some messageId /\
    get_prop body "type" = Some type /\
    truthy chatId && truthy messageId && truthy type = true /\
    session_user (auth request) = Some u /\
    getChatById env chatId (db w) = inr (Some chat) /\
    chat_userId chat = user_id u /\
    writes (trace w') =
    writes (trace w) ++ [call_voteMessage chatId messageId type].
Proof.
  unfold_handlers. repeat exec_step.
  all: repeat effects_simpl.
  all: try (left; split; reflexivity).
  all: norm_hyps.
  all: match goal with
       | H : negb ?a || negb ?b || negb ?c = false |- _ =>
           assert (a && b && c = true)
             by (destruct a, b, c; try discriminate; reflexivity);
           clear H
       end.
  all: right; do 6 eexists;
       repeat (split; [first [reflexivity | eassumption]|]); reflexivity.
Qed.

(** The vote route never passes an error of the environment on: whatever
    is thrown, an error answer of GET or PATCH carries one of the route's
    own five codes. *)
Theorem vote_route_error_codes (request : Request) (w : World Db) :
  let own r :=
    match r with
    | error_response code _ =>
        code ∈ ["bad_request:api"; "unauthorized:vote"; "not_found:chat";
                "forbidden:vote"; "internal_server_error:api"]
    | _ => True
    end in
  own (VoteRoute.GET env request w).1 /\ own (VoteRoute.PATCH env request w).1.
Proof.
  split; unfold_handlers; repeat exec_step; try exact I;
    repeat (first [apply list_elem_of_here | apply list_elem_of_further]).
Qed.

(** List-votes hands out votes only to the owner: an answer that carries
    votes has status 200, the signed-in user owns the chat, and the votes
    are those [getVotesByChatId] returned for it; GET has no other kind of
    success answer. *)
Theorem vote_GET_returns_votes_only_to_owner (request : Request) (w : World Db) :
  match (VoteRoute.GET env request w).1 with
  | response (body_votes votes) status =>
      status = 200 /\
      exists chatId u chat,
        searchParams_get (searchParams request) "chatId" = Some chatId /\
        session_user (auth request) = Some u /\
        getChatById env (JString chatId) (db w) = inr (Some chat) /\
        chat_userId chat = user_id u /\
        getVotesByChatId env chatId (db w) = inr votes
  | response _ _ => False
  | _ => True
  end.
Proof.
  unfold_handlers. repeat exec_step.
  all: try exact I.
  all: split_params; norm_hyps.
  all: split; [reflexivity|]; do 3 eexists;
       repeat (split; [first [reflexivity | eassumption]|]); eassumption.
Qed.

End DeleteAndVote.

(** ** The schemas *)

Lemma z_string_min1_Some (v : JsValue) (s : string) :
  z_string_min1 v = Some s -> v = JString s /\ s <> "".
Proof.
  destruct v; try discriminate. simpl.
  destruct (String.eqb_spec s0 ""); [discriminate|].
  intros [= <-]. auto.
Qed.

(** What [postRequestBodySchema] lets through: the JSON is an object whose
    [id], [selectedChatModel] and [selectedVisibilityType] are non-empty
    strings and whose [message] is an object with string [id] and [role]
    and an array of [parts]; the parsed body carries exactly these
    values. *)
Theorem postRequestBodySchema_sound (j : JsValue) (body : PostRequestBody) :
  postRequestBodySchema j = Some body ->
  id body <> "" /\ selectedChatModel body <> "" /\
  selectedVisibilityType body <> "" /\
  get_prop j "id" = Some (JString (id body)) /\
  get_prop j "selectedChatModel" = Some (JString (selectedChatModel body)) /\
  get_prop j "selectedVisibilityType" =
    Some (JString (selectedVisibilityType body)) /\
  exists m,
    get_prop j "message" = Some m /\
    get_prop m "id" = Some (JString (msg_id (message body))) /\
    get_prop m "role" = Some (JString (msg_role (message body))) /\
    get_prop m "parts" = Some (JArray (msg_parts (message body))).
Proof.
  destruct j as [| | | | | |f]; try discriminate. simpl.
  destruct (z_string_min1 (assoc "id" f)) as [i|] eqn:Hi; [|discriminate].
  destruct (z_message (assoc "message" f)) as [m|] eqn:Hm; [|discriminate].
  destruct (z_string_min1 (assoc "selectedChatModel" f)) as [c|] eqn:Hc;
    [|discriminate].
  destruct (z_string_min1 (assoc "selectedVisibilityType" f)) as [v|] eqn:Hv;
    [|discriminate].
  simpl. intros [= <-]. simpl.
  apply z_string_min1_Some in Hi, Hc, Hv.
  destruct Hi as [-> ?], Hc as [-> ?], Hv as [-> ?].
  repeat (split; [first [assumption | reflexivity]|]).
  exists (assoc "message" f). split; [reflexivity|].
  destruct (assoc "message" f) as [| | | | | |g]; try discriminate.
  simpl in Hm.
  destruct (assoc "id" g) eqn:Hgi; try discriminate.
  destruct (assoc "role" g) eqn:Hgr; try discriminate. simpl in Hm.
  destruct (z_optional z_string (assoc "content" g)); [|discriminate].
  simpl in Hm.
  destruct (assoc "parts" g) eqn:Hgp; try discriminate. simpl in Hm.
  destruct (z_optional z_array_any (assoc "experimental_attachments" g));
    [|discriminate].
  simpl in Hm. injection Hm as <-. simpl. rewrite Hgi, Hgr, Hgp. auto.
Qed.

Section SchemaAndGuard.
Context {Db : Type} (env : Env Db).

(** The schema of the vote body is stricter than the check PATCH makes: a
    body that [patchRequestBodySchema] accepts is never answered with
    [bad_request:api], its direction is [up] or [down], and if PATCH votes
    it passes exactly the parsed values to [voteMessage]. *)
Theorem patchRequestBodySchema_passes_PATCH_check
    (request : Request) (w : World Db) (body : JsValue) (b : PatchRequestBody) :
  json request = Some body ->
  patchRequestBodySchema body = Some b ->
  (pb_type b = "up" \/ pb_type b = "down") /\
  let '(r, w') := VoteRoute.PATCH env request w in
  (forall cause, r <> error_response "bad_request:api" cause) /\
  (writes (trace w') = writes (trace w) \/
   writes (trace w') =
   writes (trace w) ++
   [call_voteMessage (JString (pb_chatId b)) (JString (pb_messageId b))
      (JString (pb_type b))]).
Proof.
  intros Hjson Hb.
  destruct body as [| | | | | |f]; try discriminate. simpl in Hb.
  destruct (z_string_min1 (assoc "chatId" f)) as [c|] eqn:Hc; [|discriminate].
  destruct (z_string_min1 (assoc "messageId" f)) as [m|] eqn:Hm; [|discriminate].
  simpl in Hb.
  destruct (assoc "type" f) as [| | | |t| |] eqn:Ht; try discriminate.
  simpl in Hb.
  destruct (String.eqb t "up" || String.eqb t "down") eqn:Hdir; [|discriminate].
  simpl in Hb. injection Hb as <-. simpl.
  apply z_string_min1_Some in Hc, Hm. destruct Hc as [Hc ?], Hm as [Hm ?].
  split.
  { apply orb_true_iff in Hdir as [H1|H1]; apply String.eqb_eq in H1; auto. }
  assert (t <> "") as Hne.
  { intros ->. discriminate. }
  unfold VoteRoute.PATCH, VoteRoute.destructure. unfold_m.
  rewrite Hjson. cbn [get_prop]. rewrite Hc, Hm, Ht. cbn [truthy].
  rewrite !eqb_empty_false by assumption. cbn [negb orb].
  repeat exec_step; repeat effects_simpl;
    (split; [intros ?; discriminate|]); auto.
Qed.

End SchemaAndGuard.

(** ** The completion hook *)

Section Finish.
Context {Db : Type} (env : Env Db).

(** The completion hook returns normally on every input and writes at most
    once: either nothing is written, or the one write saves a single row
    for this chat, whose id is the trailing assistant id of the response
    and whose role and parts are those of the assembled assistant message,
    stamped with the finishing time. *)
Theorem onFinish_saves_one_row_at_most
    (session : option Session) (id : string) (message : UIMessage)
    (finishedAt : Z) (rs : list ResponseMessage) (w : World Db) :
  let '(o, w') := ChatRoute.onFinish env session id message finishedAt rs w in
  o = Value tt /\
  ((db w' = db w /\ writes (trace w') = writes (trace w)) \/
   exists assistantId assistantMessage,
     getTrailingMessageId env
       (filter (fun msg => String.eqb (rm_role msg) "assistant" = true) rs)
       = Some assistantId /\
     appendResponseMessages env message rs = inr assistantMessage /\
     writes (trace w') =
     writes (trace w) ++
     [call_saveMessages
        [{| dbm_id := assistantId; dbm_chatId := id;
            dbm_role := msg_role assistantMessage;
            dbm_parts := msg_parts assistantMessage;
            dbm_attachments :=
              default [] (msg_experimental_attachments assistantMessage);
            dbm_createdAt := finishedAt |}]]).
Proof.
  unfold ChatRoute.onFinish. unfold_m. repeat exec_step.
  all: repeat effects_simpl.
  all: split; [repeat match goal with u : unit |- _ => destruct u end;
               reflexivity|].
  all: try (left; split; reflexivity).
  all: right; do 2 eexists;
       repeat (split; [first [reflexivity | eassumption]|]); reflexivity.
Qed.

(** When the response holds no assistant message, the hook saves nothing:
    it logs "No assistant message found!" and returns. *)
Theorem onFinish_without_assistant_message
    (session : option Session) (u : User) (id : string) (message : UIMessage)
    (finishedAt : Z) (rs : list ResponseMessage) (w : World Db) :
  session_user session = Some u ->
  user_id u <> "" ->
  (getTrailingMessageId env
     (filter (fun msg => String.eqb (rm_role msg) "assistant" = true) rs)
     = None \/
   getTrailingMessageId env
     (filter (fun msg => String.eqb (rm_role msg) "assistant" = true) rs)
     = Some "") ->
  ChatRoute.onFinish env session id message finishedAt rs w =
  (Value tt,
   {| db := db w; globalStreamContext := globalStreamContext w;
      trace := trace w ++
               [console_error "Failed to save assistant message:"
                  (Some (Error "No assistant message found!"))] |}).
Proof.
  intros Hu Hne Hnone. unfold ChatRoute.onFinish. rewrite Hu.
  rewrite (eqb_empty_false _ Hne). cbn [negb]. unfold_m.
  destruct Hnone as [-> | ->]; reflexivity.
Qed.

End Finish.

Section VoteByOwner.
Context {Db : Type} (env : Env Db).

(** The owner's vote: [voteMessage] is called with the body's values, and
    the answer is 200 "Message voted successfully" if it returns; whatever
    it throws, a [ChatSDKError] included, is logged and answered with
    [internal_server_error:api]. *)
Theorem PATCH_by_owner
    (request : Request) (w : World Db) (body chatId messageId type : JsValue)
    (u : User) (chat : Chat) :
  json request = Some body ->
  get_prop body "chatId" = Some chatId ->
  get_prop body "messageId" = Some messageId ->
  get_prop body "type" = Some type ->
  truthy chatId && truthy messageId && truthy type = true ->
  session_user (auth request) = Some u ->
  getChatById env chatId (db w) = inr (Some chat) ->
  chat_userId chat = user_id u ->
  let '(r, w') := VoteRoute.PATCH env request w in
  db w' = (voteMessage env chatId messageId type (db w)).2 /\
  match (voteMessage env chatId messageId type (db w)).1 with
  | inr _ =>
      r = response (body_text "Message voted successfully") 200 /\
      trace w' = (trace w ++ [call_getChatById chatId]) ++
                 [call_voteMessage chatId messageId type]
  | inl error =>
      r = error_response "internal_server_error:api"
            (Some "An unexpected error occurred.") /\
      trace w' = ((trace w ++ [call_getChatById chatId]) ++
                  [call_voteMessage chatId messageId type]) ++
                 [console_error "Error in PATCH /api/vote:" (Some error)]
  end.
Proof.
  intros Hbody Hc Hm Ht Htruthy Hu Hchat Hown.
  apply andb_true_iff in Htruthy as [Htruthy Tt].
  apply andb_true_iff in Htruthy as [Tc Tm].
  unfold VoteRoute.PATCH, VoteRoute.destructure. unfold_m.
  rewrite Hbody, Hc, Hm, Ht, Tc, Tm, Tt. cbn [negb orb]. rewrite Hu.
  cbn [db trace globalStreamContext]. rewrite Hchat.
  apply String.eqb_eq in Hown. rewrite Hown. cbn [negb db trace].
  destruct (voteMessage env chatId messageId type (db w)) as [[e|[]] d];
    cbn [fst snd db trace]; auto.
Qed.

End VoteByOwner.

(** ** The further properties at work *)

Import Scenario Cases.

Lemma POST_malformed_body_bad_request_witness :
  let request := request_at [] (Some incomplete_body) (as_user alice) in
  json request ≫= postRequestBodySchema = None /\
  exists error,
    ChatRoute.POST offline_env request (boot empty_db) =
    (error_response "bad_request:api" (Some "Invalid request body."),
     {| db := empty_db; globalStreamContext := None;
        trace := [console_error "Error parsing request body:" (Some error)] |}).
Proof.
  intros request. split; [reflexivity|].
  exact (POST_malformed_body_bad_request offline_env request (boot empty_db)
           eq_refl).
Defined.

Lemma POST_signed_out_unauthorized_witness :
  let request := anonymous [] (Some (start_body "c1")) in
  session_user (auth request) = None /\
  ChatRoute.POST offline_env request (boot empty_db) =
  (error_response "unauthorized:chat" None, boot empty_db).
Proof.
  intros request. split; [reflexivity|].
  eapply (POST_signed_out_unauthorized offline_env request (boot empty_db));
    reflexivity.
Defined.

Lemma POST_non_owner_forbidden_witness :
  let w := boot (db_with [question] [("s1", "c1")]) in
  getChatById offline_env (JString "c1") (db w) = inr (Some chat1) /\
  (ChatRoute.POST offline_env (start "c1" bob) w).1 =
  error_response "forbidden:chat" None.
Proof.
  intros w. split; [reflexivity|].
  erewrite (POST_non_owner_forbidden offline_env (start "c1" bob) w
              (start_body "c1") _ bob 0 {| maxMessagesPerDay := 20 |} chat1);
    first [reflexivity | discriminate | cbn; lia].
Defined.

Lemma GET_guards_witness :
  let w := warm Mem.live (db_with [question] [("s1", "c1")]) in
  ChatRoute.GET live_env (request_at [] None (as_user alice)) w =
    (error_response "bad_request:api" (Some "Parameter chatId is required."), w) /\
  ChatRoute.GET live_env (anonymous [("chatId", "c1")] None) w =
    (error_response "unauthorized:chat" None, w) /\
  (ChatRoute.GET live_env (resume "c7" alice) w).1 =
    error_response "not_found:chat" None.
Proof.
  intros w. split; [|split].
  - apply (proj1 (GET_guards live_env (request_at [] None (as_user alice))
                    w w Mem.live eq_refl)).
    reflexivity.
  - apply (proj1 (proj2 (GET_guards live_env (anonymous [("chatId", "c1")] None)
                           w w Mem.live eq_refl)
                    "c1" eq_refl ltac:(discriminate))).
    reflexivity.
  - rewrite (proj2 (proj2 (GET_guards live_env (resume "c7" alice)
                             w w Mem.live eq_refl)
                      "c7" eq_refl ltac:(discriminate))
               alice eq_refl eq_refl).
    reflexivity.
Defined.

Lemma GET_failing_queries_witness :
  let w := warm Mem.live (db_with [question] [("s1", "c1")]) in
  (ChatRoute.GET failing_streams_env (resume "c1" alice) w).1 =
    error_response "bad_request:database"
      (Some "Failed to get stream ids by chat id") /\
  last (trace (ChatRoute.GET failing_streams_env (resume "c1" alice) w).2) =
    Some (console_error "Unhandled error in GET /api/chat:"
            (Some (ChatSDKError "bad_request:database"
                     (Some "Failed to get stream ids by chat id")))).
Proof.
  intros w.
  exact (proj2 (GET_failing_queries failing_streams_env (resume "c1" alice)
                  w w Mem.live "c1" alice eq_refl eq_refl ltac:(discriminate)
                  eq_refl)
           chat1 _ eq_refl (or_intror eq_refl) eq_refl).
Defined.

Lemma GET_live_stream_passes_through_witness :
  let w := warm Mem.live (db_with [question] [("s0", "c1"); ("s1", "c1")]) in
  resumableStream Mem.live "s1" [] = inr (Some [text_delta "Hel"]) /\
  (ChatRoute.GET live_env (resume "c1" alice) w).1 =
  response (body_stream [text_delta "Hel"]) 200.
Proof.
  intros w. split; [reflexivity|].
  rewrite (GET_live_stream_passes_through live_env (resume "c1" alice) w w
             Mem.live "c1" alice chat1 ["s0"; "s1"] "s1" [text_delta "Hel"]).
  - reflexivity.
  - repeat split; first [reflexivity | discriminate].
  - right; reflexivity.
  - reflexivity.
  - reflexivity.
  - discriminate.
  - reflexivity.
Defined.

Lemma GET_empty_latest_stream_id_witness :
  let w := warm Mem.live (db_with [question] [("s0", "c1"); ("", "c1")]) in
  last ["s0"; ""] = Some "" /\
  let '(r, w') := ChatRoute.GET live_env (resume "c1" alice) w in
  r = error_response "not_found:stream" (Some "No recent stream ID found.") /\
  attaches (trace w') = attaches (trace w).
Proof.
  intros w. split; [reflexivity|].
  apply (GET_empty_latest_stream_id live_env (resume "c1" alice) w w
           Mem.live "c1" alice chat1 ["s0"; ""]).
  - repeat split; first [reflexivity | discriminate].
  - right; reflexivity.
  - reflexivity.
  - reflexivity.
Defined.


Lemma DELETE_guards_witness :
  let w := boot (db_with [question] []) in
  ChatRoute.DELETE offline_env (request_at [] None (as_user alice)) w =
    (error_response "bad_request:api" (Some "Parameter id is required."), w) /\
  ChatRoute.DELETE offline_env (anonymous [("id", "c1")] None) w =
    (error_response "unauthorized:chat" None, w) /\
  (ChatRoute.DELETE offline_env (request_at [("id", "c7")] None (as_user alice))
     w).1 =
    error_response "not_found:chat" (Some "Chat not found.").
Proof.
  intros w. split; [|split].
  - apply (proj1 (DELETE_guards offline_env
                    (request_at [] None (as_user alice)) w)).
    reflexivity.
  - apply (proj1 (proj2 (DELETE_guards offline_env
                           (anonymous [("id", "c1")] None) w)
                    "c1" eq_refl ltac:(discriminate))).
    reflexivity.
  - rewrite (proj2 (proj2 (DELETE_guards offline_env
                             (request_at [("id", "c7")] None (as_user alice)) w)
                      "c7" eq_refl ltac:(discriminate))
               alice eq_refl eq_refl).
    reflexivity.
Defined.

Lemma PATCH_missing_field_bad_request_witness :
  let request := request_at [] (Some vote_without_message) (as_user alice) in
  get_prop vote_without_message "messageId" = Some JUndefined /\
  VoteRoute.PATCH offline_env request (boot empty_db) =
  (error_response "bad_request:api"
     (Some "Parameters chatId, messageId, and type are required."),
   boot empty_db).
Proof.
  intros request. split; [reflexivity|].
  exact (PATCH_missing_field_bad_request offline_env request (boot empty_db)
           vote_without_message (JString "c1") JUndefined (JString "up")
           eq_refl eq_refl eq_refl eq_refl eq_refl).
Defined.

Lemma PATCH_by_owner_witness :
  let w := boot (db_with [question; reply 90000] []) in
  let '(r, w') := VoteRoute.PATCH offline_env (cast "down" alice) w in
  r = response (body_text "Message voted successfully") 200 /\
  votes (db w') =
  [{| vote_chatId := "c1"; vote_messageId := "m2"; vote_isUpvoted := false |}].
Proof.
  intros w.
  pose proof (PATCH_by_owner offline_env (cast "down" alice) w
                (vote_body "down") (JString "c1") (JString "m2")
                (JString "down") alice chat1
                eq_refl eq_refl eq_refl eq_refl eq_refl eq_refl eq_refl eq_refl)
    as H.
  destruct (VoteRoute.PATCH offline_env (cast "down" alice) w) as [r w'].
  destruct H as [Hdb [Hr _]]. rewrite Hdb. split; [exact Hr|reflexivity].
Defined.

Lemma postRequestBodySchema_sound_witness :
  postRequestBodySchema (start_body "c1") <> None /\
  get_prop (start_body "c1") "id" = Some (JString "c1").
Proof.
  destruct (postRequestBodySchema (start_body "c1")) as [body|] eqn:Hbody;
    [|discriminate].
  split; [discriminate|].
  destruct (postRequestBodySchema_sound (start_body "c1") body Hbody)
    as (_ & _ & _ & Hid & _).
  rewrite Hid. vm_compute in Hbody. injection Hbody as <-. reflexivity.
Defined.

Lemma patchRequestBodySchema_passes_PATCH_check_witness :
  let w := boot (db_with [question; reply 90000] []) in
  patchRequestBodySchema (vote_body "up") =
    Some {| pb_chatId := "c1"; pb_messageId := "m2"; pb_type := "up" |} /\
  forall cause,
    (VoteRoute.PATCH offline_env (cast "up" bob) w).1 <>
    error_response "bad_request:api" cause.
Proof.
  intros w. split; [reflexivity|].
  pose proof (proj2 (patchRequestBodySchema_passes_PATCH_check offline_env
                       (cast "up" bob) w (vote_body "up") _ eq_refl eq_refl))
    as H.
  intros cause. exact (proj1 H cause).
Defined.

Lemma onFinish_without_assistant_message_witness :
  let w := boot (db_with [question] [("s1", "c1")]) in
  let '(o, w') :=
    ChatRoute.onFinish offline_env (as_user alice) "c1" asked_message 95000
      nothing_said w in
  o = Value tt /\ db w' = db w /\
  trace w' = [console_error "Failed to save assistant message:"
                (Some (Error "No assistant message found!"))].
Proof.
  intros w.
  rewrite (onFinish_without_assistant_message offline_env (as_user alice) alice
             "c1" asked_message 95000 nothing_said w eq_refl
             ltac:(discriminate) (or_introl eq_refl)).
  repeat split.
Defined.

(** A first message on a new chat with a live backend: the chat is saved,
    then the user's row, then the stream id, then the stream is published;
    the answer is what the backend returned for the producer. *)
Example POST_new_chat_with_live_backend :
  let '(r, w') := ChatRoute.POST live_env (start "c4" alice)
                    (boot (db_with [question] [("s1", "c1")])) in
  r = response
        (body_stream
           [text_delta "Hel"; text_delta "Hel"; text_delta "lo"; finish_part])
        200 /\
  effects (trace w') =
  [call_saveChat "c4" "alice" "New chat" "private";
   call_saveMessages [user_row {| id := "c4"; message := asked_message;
                                  selectedChatModel := "chat-model";
                                  selectedVisibilityType := "private" |}
                        (start "c4" alice)];
   call_createStreamId "s2" "c4";
   call_resumableStream "s2"].
Proof. vm_compute. split; reflexivity. Qed.

(** The same on an existing chat of the user, without a backend: no chat
    is saved, nothing is published, and the answer is the producer. *)
Example POST_existing_chat_without_backend :
  let '(r, w') := ChatRoute.POST offline_env (start "c1" alice)
                    (boot (db_with [question] [("s1", "c1")])) in
  r = response (body_stream [text_delta "Hel"; text_delta "lo"; finish_part])
        200 /\
  effects (trace w') =
  [call_saveMessages [user_row {| id := "c1"; message := asked_message;
                                  selectedChatModel := "chat-model";
                                  selectedVisibilityType := "private" |}
                        (start "c1" alice)];
   call_createStreamId "s2" "c1"].
Proof. vm_compute. split; reflexivity. Qed.
